(** * SDS-Extract: field extraction and consolidation engine

    A shallow embedding of [sds_extractor.py], [ai_extractor.py] and
    [ml_extractor.py], and the properties of the extraction engine proved
    on it.

    Conventions of the embedding.
    - A Python [str] is a [string]; every [ascii] stands for one code point
      in U+0000..U+00FF, so [length] is Python's [len].  Literals that hold a
      character above U+007F are written through [latin1], which decodes the
      UTF-8 bytes of the literal.
    - The standard library's [re] is embedded as a backtracking matcher
      ([Re.mt]) over the syntax tree produced by [Re.parse] from the very
      pattern strings of the source.
    - Dictionaries keep insertion order, as Python's do.
    - What the repository does not own (the hosted model, [json.loads], the
      wording of interpreter errors, the iteration order of a [set], the PDF
      reader) is a parameter of the definitions that use it. *)

From Stdlib Require Import String Ascii List Bool Arith NArith ZArith Lia.
From Stdlib Require Import DecimalString.
Import ListNotations.
Open Scope string_scope.

(* ================================================================== *)
(** * Python strings over Latin-1 code points *)

Module PyStr.

Definition code (c : ascii) : N := N_of_ascii c.

Definition in_range (lo hi c : ascii) : bool :=
  ((code lo <=? code c) && (code c <=? code hi))%N.

(** [str.isspace] and the [\s] class agree on U+0000..U+00FF. *)
Definition is_space (c : ascii) : bool :=
  let n := code c in
  (((9 <=? n) && (n <=? 13)) || ((28 <=? n) && (n <=? 32))
   || (n =? 133) || (n =? 160))%N.

Definition is_digit (c : ascii) : bool := in_range "0" "9" c.

Definition is_upper (c : ascii) : bool :=
  let n := code c in
  (in_range "A" "Z" c || ((192 <=? n) && (n <=? 222) && negb (n =? 215)))%N.

Definition is_lower_image (c : ascii) : bool :=
  let n := code c in
  (in_range "a" "z" c || ((224 <=? n) && (n <=? 254) && negb (n =? 247)))%N.

Definition lower (c : ascii) : ascii :=
  if is_upper c then ascii_of_N (code c + 32) else c.

Definition upper (c : ascii) : ascii :=
  if is_lower_image c then ascii_of_N (code c - 32) else c.

(** The [\w] class: [str.isalnum] or the underscore. *)
Definition is_word (c : ascii) : bool :=
  let n := code c in
  (is_digit c || in_range "A" "Z" c || in_range "a" "z" c || (n =? 95)
   || (n =? 170) || (n =? 178) || (n =? 179) || (n =? 181) || (n =? 185)
   || (n =? 186) || (n =? 188) || (n =? 189) || (n =? 190)
   || ((192 <=? n) && (n <=? 214)) || ((216 <=? n) && (n <=? 246))
   || (248 <=? n))%N.

Definition nl : string := String (ascii_of_N 10) "".

(** Decoder for literals: the UTF-8 bytes of a code point in
    U+0080..U+00FF become that code point; other bytes are kept. *)
Fixpoint latin1 (s : string) : string :=
  match s with
  | "" => ""
  | String c s' =>
      match s' with
      | String d s'' =>
          if (code c =? 194)%N then String d (latin1 s'')
          else if (code c =? 195)%N
               then String (ascii_of_N (code d + 64)) (latin1 s'')
               else String c (latin1 s')
      | "" => s
      end
  end.

Fixpoint py_lower (s : string) : string :=
  match s with
  | "" => ""
  | String c s' => String (lower c) (py_lower s')
  end.

Fixpoint lstrip (s : string) : string :=
  match s with
  | "" => ""
  | String c s' => if is_space c then lstrip s' else s
  end.

Fixpoint rstrip (s : string) : string :=
  match s with
  | "" => ""
  | String c s' =>
      match rstrip s' with
      | "" => if is_space c then "" else String c ""
      | t => String c t
      end
  end.

(** [s.strip()] *)
Definition strip (s : string) : string := rstrip (lstrip s).

(** [s[:n]] *)
Fixpoint take (n : nat) (s : string) : string :=
  match n, s with
  | S n', String c s' => String c (take n' s')
  | _, _ => ""
  end.

(** [s[n:]] *)
Fixpoint drop (n : nat) (s : string) : string :=
  match n, s with
  | S n', String _ s' => drop n' s'
  | _, _ => s
  end.

Fixpoint starts_with (p s : string) : bool :=
  match p, s with
  | "", _ => true
  | String a p', String b s' => Ascii.eqb a b && starts_with p' s'
  | _, "" => false
  end.

(** [sub in s] *)
Fixpoint contains (sub s : string) : bool :=
  starts_with sub s ||
  match s with
  | "" => false
  | String _ s' => contains sub s'
  end.

(** [s.replace(old, new)] for a non-empty [old]. *)
Fixpoint replace_fuel (fuel : nat) (old new s : string) : string :=
  match fuel with
  | O => s
  | S fuel' =>
      match s with
      | "" => ""
      | String c s' =>
          if starts_with old s
          then new ++ replace_fuel fuel' old new (drop (String.length old) s)
          else String c (replace_fuel fuel' old new s')
      end
  end.

Definition replace (old new s : string) : string :=
  replace_fuel (String.length s) old new s.

(** [s.split(sep)[0]] for a one-character separator. *)
Fixpoint split_first (sep : ascii) (s : string) : string :=
  match s with
  | "" => ""
  | String c s' => if Ascii.eqb c sep then "" else String c (split_first sep s')
  end.

(** [sep.join(l)] *)
Fixpoint join (sep : string) (l : list string) : string :=
  match l with
  | [] => ""
  | [x] => x
  | x :: rest => x ++ sep ++ join sep rest
  end.

Definition in_list (x : string) (l : list string) : bool :=
  existsb (String.eqb x) l.

(** Truth value of a [str]. *)
Definition nonempty (s : string) : bool :=
  match s with "" => false | _ => true end.

(** [str(n)] for an [int]. *)
Definition str_of_nat (n : nat) : string := NilEmpty.string_of_uint (Nat.to_uint n).
Definition str_of_Z (z : Z) : string := NilZero.string_of_int (Z.to_int z).

End PyStr.

Import PyStr.

(* ================================================================== *)
(** * The [re] module: syntax, parser and backtracking matcher *)

Module Re.

Inductive cset_item : Type :=
| CChar (c : ascii)
| CRange (lo hi : ascii)
| CDigit | CNotDigit
| CSpace | CNotSpace
| CWord | CNotWord.

Inductive regex : Type :=
| REmpty
| RChar (c : ascii)
| RAny
| RSet (neg : bool) (items : list cset_item)
| RCat (a b : regex)
| RAlt (a b : regex)
| RRep (greedy : bool) (lo : nat) (hi : option nat) (a : regex)
| RGroup (i : nat) (a : regex)
| RLook (a : regex)
| RBol
| REol
| REnd
| RWordB.

(** ** Parser for the pattern syntax used by the source *)

Definition cat (a b : regex) : regex :=
  match b with
  | REmpty => a
  | _ => RCat a b
  end.

Definition digit_val (c : ascii) : nat := N.to_nat (code c - 48).

Fixpoint parse_nat (acc : nat) (s : string) : nat * string :=
  match s with
  | String c s' => if is_digit c then parse_nat (10 * acc + digit_val c) s' else (acc, s)
  | "" => (acc, s)
  end.

Definition starts_digit (s : string) : bool :=
  match s with
  | String c _ => is_digit c
  | "" => false
  end.

(** A repeat specification [{n}], [{n,}] or [{n,m}] at the head of [s]. *)
Definition parse_braces (s : string) : option (nat * option nat * string) :=
  match s with
  | String "{" s1 =>
      if starts_digit s1 then
        let '(lo, s2) := parse_nat 0 s1 in
        match s2 with
        | String "}" s3 => Some (lo, Some lo, s3)
        | String "," (String "}" s3) => Some (lo, None, s3)
        | String "," s3 =>
            if starts_digit s3 then
              let '(hi, s4) := parse_nat 0 s3 in
              match s4 with
              | String "}" s5 => Some (lo, Some hi, s5)
              | _ => None
              end
            else None
        | _ => None
        end
      else None
  | _ => None
  end.

Definition lazy_suffix (s : string) : bool * string :=
  match s with
  | String "?" s' => (false, s')
  | _ => (true, s)
  end.

(** The quantifier, if any, that follows an atom. *)
Definition parse_quant (a : regex) (s : string) : regex * string :=
  match s with
  | String "*" s' => let '(g, s'') := lazy_suffix s' in (RRep g 0 None a, s'')
  | String "+" s' => let '(g, s'') := lazy_suffix s' in (RRep g 1 None a, s'')
  | String "?" s' => let '(g, s'') := lazy_suffix s' in (RRep g 0 (Some 1) a, s'')
  | _ =>
      match parse_braces s with
      | Some (lo, hi, s') => let '(g, s'') := lazy_suffix s' in (RRep g lo hi a, s'')
      | None => (a, s)
      end
  end.

(** A backslash escape that stands for a class, inside or outside a set. *)
Definition class_escape (c : ascii) : option cset_item :=
  if Ascii.eqb c "d" then Some CDigit
  else if Ascii.eqb c "D" then Some CNotDigit
  else if Ascii.eqb c "s" then Some CSpace
  else if Ascii.eqb c "S" then Some CNotSpace
  else if Ascii.eqb c "w" then Some CWord
  else if Ascii.eqb c "W" then Some CNotWord
  else None.

(** A backslash escape that stands for one character: the control escapes,
    or an escaped punctuation character.  Other escaped letters and digits
    (back-references and the like) are outside the supported syntax. *)
Definition char_escape (c : ascii) : option ascii :=
  if Ascii.eqb c "n" then Some (ascii_of_N 10)
  else if Ascii.eqb c "t" then Some (ascii_of_N 9)
  else if Ascii.eqb c "r" then Some (ascii_of_N 13)
  else if Ascii.eqb c "f" then Some (ascii_of_N 12)
  else if Ascii.eqb c "v" then Some (ascii_of_N 11)
  else if is_digit c || in_range "A" "Z" c || in_range "a" "z" c then None
  else Some c.

(** The items of a set, up to the closing bracket. *)
Fixpoint parse_set (fuel : nat) (s : string) : option (list cset_item * string) :=
  match fuel with
  | O => None
  | S fuel' =>
      match s with
      | "" => None
      | String "]" s' => Some ([], s')
      | String "\" (String e s') =>
          match class_escape e with
          | Some it =>
              match parse_set fuel' s' with
              | Some (its, r) => Some (it :: its, r)
              | None => None
              end
          | None =>
              match char_escape e with
              | Some c =>
                  match parse_set fuel' s' with
                  | Some (its, r) => Some (CChar c :: its, r)
                  | None => None
                  end
              | None => None
              end
          end
      | String "\" "" => None
      | String c (String "-" (String h s')) =>
          if Ascii.eqb h "]" then
            match parse_set fuel' (String "-" (String h s')) with
            | Some (its, r) => Some (CChar c :: its, r)
            | None => None
            end
          else if Ascii.eqb h "\" then None
          else
            match parse_set fuel' s' with
            | Some (its, r) => Some (CRange c h :: its, r)
            | None => None
            end
      | String c s' =>
          match parse_set fuel' s' with
          | Some (its, r) => Some (CChar c :: its, r)
          | None => None
          end
      end
  end.

(** [parse_alt], [parse_seq] and [parse_atom] thread the text still to be
    read and the number of the next capturing group. *)
Fixpoint parse_alt (fuel : nat) (s : string) (g : nat)
  : option (regex * string * nat) :=
  match fuel with
  | O => None
  | S fuel' =>
      match parse_seq fuel' s g with
      | Some (a, String "|" s1, g1) =>
          match parse_alt fuel' s1 g1 with
          | Some (b, s2, g2) => Some (RAlt a b, s2, g2)
          | None => None
          end
      | other => other
      end
  end
with parse_seq (fuel : nat) (s : string) (g : nat)
  : option (regex * string * nat) :=
  match fuel with
  | O => None
  | S fuel' =>
      match s with
      | "" => Some (REmpty, s, g)
      | String "|" _ => Some (REmpty, s, g)
      | String ")" _ => Some (REmpty, s, g)
      | _ =>
          match parse_atom fuel' s g with
          | Some (a, s1, g1) =>
              let '(q, s2) := parse_quant a s1 in
              match parse_seq fuel' s2 g1 with
              | Some (b, s3, g3) => Some (cat q b, s3, g3)
              | None => None
              end
          | None => None
          end
      end
  end
with parse_atom (fuel : nat) (s : string) (g : nat)
  : option (regex * string * nat) :=
  match fuel with
  | O => None
  | S fuel' =>
      match s with
      | "" => None
      | String "(" (String "?" (String ":" s1)) =>
          match parse_alt fuel' s1 g with
          | Some (a, String ")" s2, g2) => Some (a, s2, g2)
          | _ => None
          end
      | String "(" (String "?" (String "=" s1)) =>
          match parse_alt fuel' s1 g with
          | Some (a, String ")" s2, g2) => Some (RLook a, s2, g2)
          | _ => None
          end
      | String "(" (String "?" _) => None
      | String "(" s1 =>
          match parse_alt fuel' s1 (S g) with
          | Some (a, String ")" s2, g2) => Some (RGroup g a, s2, g2)
          | _ => None
          end
      | String "[" (String "^" s1) =>
          match parse_set fuel' s1 with
          | Some (its, s2) => Some (RSet true its, s2, g)
          | None => None
          end
      | String "[" s1 =>
          match parse_set fuel' s1 with
          | Some (its, s2) => Some (RSet false its, s2, g)
          | None => None
          end
      | String "." s1 => Some (RAny, s1, g)
      | String "^" s1 => Some (RBol, s1, g)
      | String "$" s1 => Some (REol, s1, g)
      | String "\" (String e s1) =>
          match class_escape e with
          | Some it => Some (RSet false [it], s1, g)
          | None =>
              if Ascii.eqb e "b" then Some (RWordB, s1, g)
              else if Ascii.eqb e "Z" then Some (REnd, s1, g)
              else
                match char_escape e with
                | Some c => Some (RChar c, s1, g)
                | None => None
                end
          end
      | String "\" "" => None
      | String "*" _ => None
      | String "+" _ => None
      | String "?" _ => None
      | String c s1 => Some (RChar c, s1, g)
      end
  end.

(** [re.compile]: the tree of a pattern, and the number of its capturing
    groups; [None] where [re] raises [re.error] or the pattern is outside
    the supported syntax. *)
Definition parse (p : string) : option (regex * nat) :=
  match parse_alt (3 * String.length p + 3) p 1 with
  | Some (r, "", g) => Some (r, g - 1)
  | _ => None
  end.

(** ** Matcher *)

Record flags : Type := mkFlags
  { f_icase : bool; f_dotall : bool; f_multiline : bool }.

(** No flag, [re.IGNORECASE], [re.IGNORECASE | re.DOTALL], [re.DOTALL] and
    [re.IGNORECASE | re.DOTALL | re.MULTILINE]. *)
Definition F0 : flags := mkFlags false false false.
Definition FI : flags := mkFlags true false false.
Definition FIS : flags := mkFlags true true false.
Definition FS : flags := mkFlags false true false.
Definition FISM : flags := mkFlags true true true.

(** A position in the subject: the character before it, the text from it
    on, its index, and the groups captured so far (latest first). *)
Record mstate : Type := mkSt
  { st_prev : option ascii;
    st_rest : string;
    st_pos : nat;
    st_caps : list (nat * string) }.

Definition kont : Type := mstate -> option mstate.

Definition char_eq (ic : bool) (c a : ascii) : bool :=
  if ic then Ascii.eqb (lower c) (lower a) else Ascii.eqb c a.

Definition item_match (ic : bool) (it : cset_item) (a : ascii) : bool :=
  match it with
  | CChar c => char_eq ic c a
  | CRange lo hi =>
      if ic
      then in_range lo hi a || in_range lo hi (lower a) || in_range lo hi (upper a)
      else in_range lo hi a
  | CDigit => is_digit a
  | CNotDigit => negb (is_digit a)
  | CSpace => is_space a
  | CNotSpace => negb (is_space a)
  | CWord => is_word a
  | CNotWord => negb (is_word a)
  end.

Definition set_match (ic neg : bool) (items : list cset_item) (a : ascii) : bool :=
  xorb neg (existsb (fun it => item_match ic it a) items).

Definition any_match (dotall : bool) (a : ascii) : bool :=
  dotall || negb (Ascii.eqb a (ascii_of_N 10)).

(** Consume one character that satisfies [p]. *)
Definition step (p : ascii -> bool) (st : mstate) (k : kont) : option mstate :=
  match st_rest st with
  | String a rest' =>
      if p a then k (mkSt (Some a) rest' (S (st_pos st)) (st_caps st)) else None
  | "" => None
  end.

Definition is_nl (c : ascii) : bool := Ascii.eqb c (ascii_of_N 10).

Definition at_bol (fl : flags) (st : mstate) : bool :=
  match st_prev st with
  | None => true
  | Some c => f_multiline fl && is_nl c
  end.

Definition at_eol (fl : flags) (st : mstate) : bool :=
  match st_rest st with
  | "" => true
  | String c "" => is_nl c
  | String c _ => f_multiline fl && is_nl c
  end.

Definition at_end (st : mstate) : bool :=
  match st_rest st with "" => true | _ => false end.

Definition word_before (st : mstate) : bool :=
  match st_prev st with Some c => is_word c | None => false end.

Definition word_after (st : mstate) : bool :=
  match st_rest st with String c _ => is_word c | "" => false end.

Definition at_wordb (st : mstate) : bool := xorb (word_before st) (word_after st).

Definition set_cap (i : nat) (s : string) (st : mstate) : mstate :=
  mkSt (st_prev st) (st_rest st) (st_pos st) ((i, s) :: st_caps st).

Definition under (hi : option nat) (n : nat) : bool :=
  match hi with
  | None => true
  | Some h => (n <? h)%nat
  end.

(** The loop of a quantifier: [n] iterations are done; a greedy loop tries
    one more before it lets the rest of the pattern run, a lazy one the
    other way round.  An iteration that consumes nothing is not taken, so
    [S (length rest)] units of [fuel] are never used up. *)
Fixpoint rep_loop (body : mstate -> kont -> option mstate)
    (greedy : bool) (lo : nat) (hi : option nat)
    (fuel n : nat) (st : mstate) (k : kont) {struct fuel} : option mstate :=
  match fuel with
  | O => if (lo <=? n)%nat then k st else None
  | S fuel' =>
      let again (_ : unit) :=
        if under hi n
        then body st (fun st' =>
               if (st_pos st' =? st_pos st)%nat then None
               else rep_loop body greedy lo hi fuel' (S n) st' k)
        else None in
      let stop (_ : unit) := if (lo <=? n)%nat then k st else None in
      if greedy
      then match again tt with Some r => Some r | None => stop tt end
      else match stop tt with Some r => Some r | None => again tt end
  end.

(** [mt fl r st k]: match [r] at [st], then run [k] on the position
    reached; the first way through that makes [k] succeed wins, in the
    order [re] explores them. *)
Fixpoint mt (fl : flags) (r : regex) (st : mstate) (k : kont) {struct r}
  : option mstate :=
  match r with
  | REmpty => k st
  | RChar c => step (char_eq (f_icase fl) c) st k
  | RAny => step (any_match (f_dotall fl)) st k
  | RSet neg items => step (set_match (f_icase fl) neg items) st k
  | RCat a b => mt fl a st (fun st' => mt fl b st' k)
  | RAlt a b =>
      match mt fl a st k with
      | Some res => Some res
      | None => mt fl b st k
      end
  | RRep g lo hi a =>
      rep_loop (mt fl a) g lo hi (S (String.length (st_rest st))) 0 st k
  | RGroup i a =>
      mt fl a st (fun st' =>
        k (set_cap i (take (st_pos st' - st_pos st) (st_rest st)) st'))
  | RLook a =>
      match mt fl a st (fun st' => Some st') with
      | Some st' => k (mkSt (st_prev st) (st_rest st) (st_pos st) (st_caps st'))
      | None => None
      end
  | RBol => if at_bol fl st then k st else None
  | REol => if at_eol fl st then k st else None
  | REnd => if at_end st then k st else None
  | RWordB => if at_wordb st then k st else None
  end.

(** A match object: [start()], [end()], [group(0)] and the groups set. *)
Record rmatch : Type := mkMatch
  { m_start : nat;
    m_end : nat;
    m_group0 : string;
    m_caps : list (nat * string) }.

Fixpoint lookup_cap (i : nat) (caps : list (nat * string)) : option string :=
  match caps with
  | [] => None
  | (j, s) :: rest => if (i =? j)%nat then Some s else lookup_cap i rest
  end.

(** [m.group(i)] for [i >= 1]; [None] when the group took no part. *)
Definition group (m : rmatch) (i : nat) : option string := lookup_cap i (m_caps m).

(** [pattern.match] at one position of the subject. *)
Definition match_here (fl : flags) (r : regex)
    (prev : option ascii) (rest : string) (pos : nat) : option rmatch :=
  match mt fl r (mkSt prev rest pos []) (fun st' => Some st') with
  | Some st' =>
      Some (mkMatch pos (st_pos st') (take (st_pos st' - pos) rest) (st_caps st'))
  | None => None
  end.

(** Leftmost match at or after a position. *)
Fixpoint search_from (fl : flags) (r : regex)
    (prev : option ascii) (rest : string) (pos : nat) : option rmatch :=
  match match_here fl r prev rest pos with
  | Some m => Some m
  | None =>
      match rest with
      | String c rest' => search_from fl r (Some c) rest' (S pos)
      | "" => None
      end
  end.

Definition last_char (prev : option ascii) (s : string) : option ascii :=
  (fix go (p : option ascii) (s : string) : option ascii :=
     match s with
     | "" => p
     | String c s' => go (Some c) s'
     end) prev s.

(** The successive non-overlapping matches, left to right.  After a match
    of [n > 0] characters the scan resumes [n] characters on; an empty
    match moves the scan on by one character (no pattern of the source that
    is scanned this way can match the empty string). *)
Fixpoint scan (fl : flags) (r : regex) (fuel : nat)
    (prev : option ascii) (rest : string) (pos : nat) : list rmatch :=
  match fuel with
  | O => []
  | S fuel' =>
      match match_here fl r prev rest pos with
      | Some m =>
          let n := m_end m - pos in
          if (n =? 0)%nat then
            m :: match rest with
                 | String c rest' => scan fl r fuel' (Some c) rest' (S pos)
                 | "" => []
                 end
          else m :: scan fl r fuel' (last_char prev (take n rest)) (drop n rest) (pos + n)
      | None =>
          match rest with
          | String c rest' => scan fl r fuel' (Some c) rest' (S pos)
          | "" => []
          end
      end
  end.

(** [re.sub] with a replacement that holds no group reference. *)
Fixpoint sub_from (fl : flags) (r : regex) (repl : string) (fuel : nat)
    (prev : option ascii) (rest : string) (pos : nat) : string :=
  match fuel with
  | O => rest
  | S fuel' =>
      match match_here fl r prev rest pos with
      | Some m =>
          let n := m_end m - pos in
          if (n =? 0)%nat then
            repl ++ match rest with
                    | String c rest' =>
                        String c (sub_from fl r repl fuel' (Some c) rest' (S pos))
                    | "" => ""
                    end
          else repl ++ sub_from fl r repl fuel'
                         (last_char prev (take n rest)) (drop n rest) (pos + n)
      | None =>
          match rest with
          | String c rest' =>
              String c (sub_from fl r repl fuel' (Some c) rest' (S pos))
          | "" => ""
          end
      end
  end.

(** ** The functions of the module, on pattern strings

    A pattern that [parse] rejects matches nothing here; every pattern of
    the source parses (see [Patterns.all_patterns_parse]). *)

Definition search (fl : flags) (p text : string) : option rmatch :=
  match parse p with
  | Some (r, _) => search_from fl r None text 0
  | None => None
  end.

Definition groups_of (p : string) : nat :=
  match parse p with
  | Some (_, g) => g
  | None => 0
  end.

Definition searchb (fl : flags) (p text : string) : bool :=
  match search fl p text with Some _ => true | None => false end.

Definition finditer (fl : flags) (p text : string) : list rmatch :=
  match parse p with
  | Some (r, _) => scan fl r (S (String.length text)) None text 0
  | None => []
  end.

Definition or_empty (o : option string) : string :=
  match o with Some s => s | None => "" end.

(** [re.findall] for a pattern with at most one group: the group of each
    match if there is one (empty when unset), the whole match otherwise. *)
Definition findall (fl : flags) (p text : string) : list string :=
  let g := groups_of p in
  map (fun m => if (g =? 0)%nat then m_group0 m else or_empty (group m 1))
      (finditer fl p text).

Definition sub (fl : flags) (p repl text : string) : string :=
  match parse p with
  | Some (r, _) => sub_from fl r repl (S (String.length text)) None text 0
  | None => text
  end.

End Re.

Import Re.

(* ================================================================== *)
(** * Dictionaries in insertion order *)

Module Dict.
Section Dict.
Context {V : Type}.

Definition t : Type := list (string * V).

Fixpoint get (k : string) (d : t) : option V :=
  match d with
  | [] => None
  | (k', v) :: rest => if String.eqb k k' then Some v else get k rest
  end.

(** [k in d] *)
Definition mem (k : string) (d : t) : bool :=
  match get k d with Some _ => true | None => false end.

(** [d[k] = v]: a key already there keeps its place. *)
Fixpoint set (k : string) (v : V) (d : t) : t :=
  match d with
  | [] => [(k, v)]
  | (k', v') :: rest =>
      if String.eqb k k' then (k, v) :: rest else (k', v') :: set k v rest
  end.

Definition keys (d : t) : list string := map fst d.

End Dict.
Arguments t : clear implicits.
End Dict.

(* ================================================================== *)
(** * [sds_extractor.py]: the pattern tables *)

Module Patterns.

(** [extract_sds_data], line 16. *)
Definition required_fields : list string :=
  [ "Number";
    "Product Name";
    "Supplier/Manufacturer";
    "Hazards";
    "Location";
    "SDS Available";
    "Issue Date";
    "Health Hazards";
    "Health Category";
    "Physical Hazards";
    "Physical Category";
    "Hazardous Substance";
    "Flash Point (Deg C)";
    "Dangerous Goods Class";
    "Description";
    "Packing Group";
    "Appearance";
    "Colour";
    "Odour";
    "First Aid Measures";
    "Firefighting Measures" ].

(** [extract_pattern_based], line 117. *)
Definition health_category_patterns : list string :=
  [ "[Ss]kin\s+(?:irritation|corrosion|sensitization)[^,\n]*?[(\s](?:Category|Cat\.?)[)\s]*(\d[A-Z]?)";
    "[Ee]ye\s+(?:irritation|damage)[^,\n]*?[(\s](?:Category|Cat\.?)[)\s]*(\d[A-Z]?)";
    "[Rr]eproductive\s+[Tt]oxicity[^,\n]*?[(\s](?:Category|Cat\.?)[)\s]*(\d[A-Z]?)";
    "(?:STOT|[Ss]pecific\s+[Tt]arget\s+[Oo]rgan\s+[Tt]oxicity)[^,\n]*?[(\s](?:Category|Cat\.?)[)\s]*(\d[A-Z]?)";
    "[Aa]cute\s+[Tt]oxicity[^,\n]*?[(\s](?:Category|Cat\.?)[)\s]*(\d[A-Z]?)";
    "[Ss]kin\s+[Cc]orrosion[^,\n]*?[(\s](?:Category|Cat\.?)[)\s]*(\d[A-Z]?)";
    "[Rr]espiratory\s+[Ss]ensitization[^,\n]*?[(\s](?:Category|Cat\.?)[)\s]*(\d[A-Z]?)";
    "[Ee]ye\s+[Ii]rrit\.(?:\s+|\s*-\s*|\s*|\.)(\d+[A-Z]?)";
    "[Ss]kin\s+[Ii]rrit\.(?:\s+|\s*-\s*|\s*|\.)(\d+[A-Z]?)";
    "[Ss]kin\s+[Cc]orr\.(?:\s+|\s*-\s*|\s*|\.)(\d+[A-Z]?)";
    "[Aa]cute\s+[Tt]ox\.(?:\s+|\s*-\s*|\s*|\.)(\d+[A-Z]?)";
    "STOT\s+SE(?:\s+|\s*-\s*|\s*|\.)(\d+[A-Z]?)";
    "STOT\s+RE(?:\s+|\s*-\s*|\s*|\.)(\d+[A-Z]?)";
    "[Cc]arc\.(?:\s+|\s*-\s*|\s*|\.)(\d+[A-Z]?)";
    "[Aa]sp\.\s+[Tt]ox\.(?:\s+|\s*-\s*|\s*|\.)(\d+[A-Z]?)";
    "[Rr]esp\.\s+[Ss]ens\.(?:\s+|\s*-\s*|\s*|\.)(\d+[A-Z]?)";
    "[Ss]kin\s+[Ss]ens\.(?:\s+|\s*-\s*|\s*|\.)(\d+[A-Z]?)";
    "[Ff]lam\.\s+[Ll]iq\.(?:\s+|\s*-\s*|\s*|\.)(\d+[A-Z]?)";
    "[Rr]epr\.(?:\s+|\s*-\s*|\s*|\.)(\d+[A-Z]?)";
    "[Mm]uta\.(?:\s+|\s*-\s*|\s*|\.)(\d+[A-Z]?)";
    "(?:skin|eye|repro|reproductive|toxicity|respir|acute|damage|irritation|sens)[^,\n]{0,50}?(?:Cat\.|Category)[^,\n]{0,20}?(\d[A-Z]?)";
    "[Hh]uman health(?:[^(]*?)\(?[^\d]*(\d[A-Z]?)\)?";
    "[Hh]ealth(?:[^(]*?)\(?[^\d]*(\d[A-Z]?)\)?";
    "[Hh]ealth [Ee]ffects[^:]*?(?:Category|Cat\.?)[^,\n]*?(\d[A-Z]?)";
    "EU[^:]*?[Cc]lass(?:[^(]*?)\(?[^\d]*(\d[A-Z]?)\)?";
    "CLP[^:]*?[Cc]lass(?:[^(]*?)\(?[^\d]*(\d[A-Z]?)\)?";
    "(?:Category|Cat\.?)\s*(\d[A-Z]?)[^,\n]{0,100}?(?:toxic|health|irritation|corrosion|sensitization|damage)";
    "(?:toxic|health|irritation|corrosion|sensitization|damage)[^,\n]{0,100}?(?:Category|Cat\.?)\s*(\d[A-Z]?)";
    "(?:SECTION\s+2|2\.)[^A-Z]{0,500}?(?:Category|Cat\.?)\s*(\d[A-Z]?)" ].

(** [extract_pattern_based], line 194. *)
Definition physical_category_patterns : list string :=
  [ "(?:Flammable|Explosive|Oxidizing)[^,\n]{0,50}?(?:Category|Cat\.?)\s*(\d[A-Z]?)";
    "(?:Category|Cat\.?)\s*(\d[A-Z]?)[^,\n]{0,50}?(?:flammable|explosive|reactive|oxidizing|oxidising|pyrophoric|self[\s-]heating|corrosive|gas|liquid|solid)";
    "[Pp]hysical [Hh]azards?[^,\n]{0,50}?(?:Category|Cat\.?)\s*(\d[A-Z]?)";
    "[Ff]lam\.\s+(?:Liq\.|Gas\.|Sol\.)[^,\n]{0,20}?(\d+[A-Z]?)";
    "[Ee]xpl\.[^,\n]{0,20}?(\d+[A-Z]?)";
    "[Oo]x(?:id)?\.\s+(?:Gas\.|Liq\.|Sol\.)[^,\n]{0,20}?(\d+[A-Z]?)";
    "[Pp]ress\.\s+[Gg]as[^,\n]{0,20}?(\d+[A-Z]?)";
    "[Ss]elf[\s-][Rr]eact\.[^,\n]{0,20}?(\d+[A-Z]?)";
    "[Pp]yr\.\s+(?:Liq\.|Sol\.)[^,\n]{0,20}?(\d+[A-Z]?)";
    "[Ss]elf[\s-][Hh]eat\.[^,\n]{0,20}?(\d+[A-Z]?)";
    "[Mm]et\.\s+[Cc]orr\.[^,\n]{0,20}?(\d+[A-Z]?)";
    "(?:fire|explosion|reactivity|stability|decomposition)[^,\n]{0,50}?(?:Category|Cat\.?)\s*(\d[A-Z]?)";
    "(?:GHS|CLP|EU)[^A-Z]{0,100}?physical[^A-Z]{0,100}?(?:Category|Cat\.?)\s*(\d[A-Z]?)";
    "(?:SECTION\s+9|9\.)[^A-Z]{0,500}?(?:Category|Cat\.?)\s*(\d[A-Z]?)";
    "(?:physical|flammable|explosive|oxidizing|oxidising|self-heating|pyrophoric|corrosive)[^,\n]{0,100}?(?:Category|Cat\.?)\s*(\d[A-Z]?)" ].

(** [extract_pattern_based], line 225. *)
Definition hazard_stmt_patterns : list string :=
  [ "Hazard statement(?:s)?[:\s]+(.*?)(?:\n\s*[A-Z]|\n\n|Precautionary)";
    "H-statement(?:s)?[:\s]+(.*?)(?:\n\s*[A-Z]|\n\n)";
    "(?:H\d{3})[^:]*?:[^:]*?(.*?)(?:\n\s*[A-Z]|\n\n)";
    "H\d{3}(?:\+\d{3})*\s+([^.\n]*)" ].

(** [extract_pattern_based], line 355. *)
Definition flash_point_patterns : list string :=
  [ latin1 "Flash[- ]?point[^:]*?:\s*([^,\n]*?°C[^,\n]*)";
    "Flash[- ]?point[^:]*?:\s*([^,\n]*?C[^,\n]*)";
    "Flash[- ]?point[^:]*?:\s*([^,\n]*?Celsius[^,\n]*)";
    "Flash[- ]?point[^:]*?:\s*([^,\n]*)" ].

(** [extract_pattern_based], line 364. *)
Definition appearance_patterns : list string :=
  [ "Appearance[^:]*?:\s*([^,\n]*)";
    "Physical [Ss]tate[^:]*?:\s*([^,\n]*)";
    "Form[^:]*?:\s*([^,\n]*)";
    "Color[^:]*?:\s*([^,\n]*)" ].

(** [extract_pattern_based], line 377. *)
Definition odor_patterns : list string :=
  [ latin1 "[Oo]dou?r[^:]*?:\s*([^,\n\d°]*\w+)";
    latin1 "[Ss]mell[^:]*?:\s*([^,\n\d°]*\w+)" ].

(** [extract_pattern_based], line 393. *)
Definition smell_words : list string :=
  [ "amine";
    "ammonia";
    "fishy";
    "pungent";
    "sweet";
    "sour";
    "acrid";
    "aromatic";
    "odorless";
    "odourless";
    "characteristic" ].

(** [extract_pattern_based], line 403. *)
Definition color_patterns : list string :=
  [ "[Cc]olou?r[^:]*?:\s*([^,\n]*)";
    "[Cc]olou?r\s+(?:appearance)?[^:]*?:\s*([^,\n]*)" ].

(** [extract_pattern_based], line 416. *)
Definition packing_group_patterns : list string :=
  [ "[Pp]acking [Gg]roup[^:]*?:\s*([^,\n]*)";
    "[Pp]ackaging [Gg]roup[^:]*?:\s*([^,\n]*)";
    "UN [Pp]acking [Gg]roup[^:]*?:\s*([^,\n]*)";
    "[Pp]acking [Gg]roup\s+([^,\n]*)" ].

(** [extract_pattern_based], line 425. *)
Definition dangerous_goods_patterns : list string :=
  [ "[Dd]angerous [Gg]oods[^:]*?[Cc]lass[^:]*?:\s*([^,\n]*)";
    "[Tt]ransport [Hh]azard [Cc]lass(?:\s?\((?:es|es)\))?[^:]*?:\s*([^,\n]*)";
    "[Hh]azard [Cc]lass[^:]*?:\s*([^,\n]*)";
    "ADR/RID[^:]*?:\s*([^,\n]*)";
    "IMDG[^:]*?[Cc]lass[^:]*?:\s*([^,\n]*)";
    "IATA[^:]*?[Cc]lass[^:]*?:\s*([^,\n]*)" ].

(** [extract_pattern_based], line 436. *)
Definition storage_patterns : list string :=
  [ "[Ss]torage[^:]*?:\s*([^,\n]*\n[^,\n]*)";
    "[Ss]torage conditions[^:]*?:\s*([^,\n]*)";
    "[Ss]torage precautions[^:]*?:\s*([^,\n]*)";
    "[Ss]torage requirements[^:]*?:\s*([^,\n]*)" ].

(** [extract_pattern_based], line 445. *)
Definition product_patterns : list string :=
  [ "Product\s+name\s*[:\n](.*?)(?:\n\s*[A-Z]|\n\n)";
    "Product\s+identifier\s*[:\n](.*?)(?:\n\s*[A-Z]|\n\n)";
    "Name\s+[:\n](.*?)(?:\n\s*[A-Z]|\n\n)";
    "(?:SECTION\s+1)[^,]*?[Pp]roduct[^:]*?:\s*(.*?)(?:\n\s*[A-Z]|\n\n)";
    "Product[:\s]+(.*?)(?:\n\s*[A-Z]|\n\n)";
    "Trade\s+name\s*[:\n](.*?)(?:\n\s*[A-Z]|\n\n)";
    "Chemical\s+name\s*[:\n](.*?)(?:\n\s*[A-Z]|\n\n)";
    "Material\s+name\s*[:\n](.*?)(?:\n\s*[A-Z]|\n\n)";
    "\n\s*(?:[A-Z][A-Z\s]+)\s*\n";
    "^.{1,500}?(?:[A-Z][A-Z0-9\s]{3,30})" ].

(** [extract_pattern_based], line 462. *)
Definition cas_patterns : list string :=
  [ "CAS(?:[\s-]*No\.?|[-\s]*Number)[:\s]*([\d\-]+)";
    "CAS[:\s]*([\d\-]+)";
    "(?:CAS|CASNO|CAS-No)[^a-zA-Z0-9]*(\d{1,7}-\d{2}-\d{1})";
    "(?:Chemical\s+Abstract\s+Number)[^a-zA-Z0-9]*(\d{1,7}-\d{2}-\d{1})";
    "(?:\D|^)(\d{1,7}-\d{2}-\d{1})(?:\D|$)" ].

(** [extract_pattern_based], line 473. *)
Definition chem_id_patterns : list string :=
  [ "Chemical(?:\s+name|\s+identification)[:\s]+(.*?)(?:\n\s*[A-Z]|\n\n)";
    "Substance(?:\s+name)?[:\s]+(.*?)(?:\n\s*[A-Z]|\n\n)";
    "Formula[:\s]+(.*?)(?:\n\s*[A-Z]|\n\n)";
    "Identification[:\s]+(.*?)(?:\n\s*[A-Z]|\n\n)";
    "IUPAC\s+Name[:\s]+(.*?)(?:\n\s*[A-Z]|\n\n)";
    "Molecular\s+formula[:\s]+(.*?)(?:\n\s*[A-Z]|\n\n)";
    "EC[- ]?Number[:\s]+(.*?)(?:\n\s*[A-Z]|\n\n)";
    "(?:Composition|Components)[:\s]+(.*?)(?:\n\s*[A-Z]|\n\n)";
    "(?:[A-Z][a-z]?\d*){2,}";
    "(?:SECTION\s+3|3\.)[^A-Z]*?([A-Za-z0-9].*?)(?:\n\s*[A-Z]|\n\n)" ].

(** [extract_pattern_based], line 492. *)
Definition precautionary_patterns : list string :=
  [ "Precautionary\s+[Ss]tatements?[:\s]+(.*?)(?:\n\s*[A-Z]|\n\n|SECTION)";
    "P[- ]?statements?[:\s]+(.*?)(?:\n\s*[A-Z]|\n\n)";
    "Prevention[:\s]+(.*?)(?:\n\s*[A-Z]|\n\n)";
    "Response[:\s]+(.*?)(?:\n\s*[A-Z]|\n\n)";
    "Storage[:\s]+(.*?)(?:\n\s*[A-Z]|\n\n)";
    "Disposal[:\s]+(.*?)(?:\n\s*[A-Z]|\n\n)";
    "((?:P\d{3}[^:,;]*?)[,;\n]){1,}";
    "(?:SECTION\s+7|7\.)[^A-Z]*?([^:]*?storage[^:]*?)(?:\n\s*[A-Z]|\n\n)";
    "(?:SECTION\s+7|7\.)[^A-Z]*?([^:]*?handling[^:]*?)(?:\n\s*[A-Z]|\n\n)" ].

(** [extract_pattern_based], line 508. *)
Definition first_aid_patterns : list string :=
  [ "(?:SECTION\s+4[:\.\s]*|4\.?\s+)(?:First[- ]aid\s+measures)(.*?)(?:SECTION\s+5|5\.)";
    "First[- ]aid\s+measures[:\s]+(.*?)(?:\n\s*[A-Z]|\n\n|SECTION)";
    "First\s+aid[:\s]+(.*?)(?:\n\s*[A-Z]|\n\n|SECTION)";
    "If\s+inhaled[:\s]+(.*?)(?:\n\s*[A-Z]|\n\n)";
    "In\s+case\s+of\s+skin\s+contact[:\s]+(.*?)(?:\n\s*[A-Z]|\n\n)";
    "In\s+case\s+of\s+eye\s+contact[:\s]+(.*?)(?:\n\s*[A-Z]|\n\n)";
    "If\s+swallowed[:\s]+(.*?)(?:\n\s*[A-Z]|\n\n)";
    "(?:SECTION\s+4|4\.)[^A-Z]{10,500}" ].

(** [extract_pattern_based], line 522. *)
Definition firefighting_patterns : list string :=
  [ "(?:SECTION\s+5[:\.\s]*|5\.?\s+)(?:Fire[\s-]?fighting\s+measures)(.*?)(?:SECTION\s+6|6\.)";
    "Fire[\s-]?fighting\s+measures[:\s]+(.*?)(?:\n\s*[A-Z]|\n\n|SECTION)";
    "Suitable\s+extinguishing\s+(?:media|agents)[:\s]+(.*?)(?:\n\s*[A-Z]|\n\n)";
    "Extinguishing\s+media[:\s]+(.*?)(?:\n\s*[A-Z]|\n\n)";
    "Special\s+(?:hazards|dangers)[:\s]+(.*?)(?:\n\s*[A-Z]|\n\n)";
    "Special\s+protective\s+equipment[:\s]+(.*?)(?:\n\s*[A-Z]|\n\n)";
    "Advice\s+for\s+firefighters[:\s]+(.*?)(?:\n\s*[A-Z]|\n\n)";
    "(?:SECTION\s+5|5\.)[^A-Z]{10,500}" ].

(** [extract_pattern_based], line 536. *)
Definition supplier_patterns : list string :=
  [ "(?:^|[\s\n])Sigma[\- ]Aldrich(?:[\s\n]|$)";
    "(?:^|[\s\n])Sigma[\- ]Aldrich\s+[^\n,;]{0,30}";
    "(?:^|[\s\n])Merck(?:[\s\n]|$)";
    "(?:^|[\s\n])Merck\s+Life\s+Science(?:[\s\n]|$)";
    "(?:^|[\s\n])MilliporeSigma(?:[\s\n]|$)";
    "(?:^|[\s\n])Fisher\s+Scientific(?:[\s\n]|$)";
    "Company(?:\s+name)?[\s:]*?[:]*[\s:]*([^\n,;]{5,60})";
    "Supplier(?:\s+name)?[\s:]*?[:]*[\s:]*([^\n,;]{5,60})";
    "Manufacturer(?:\s+name)?[\s:]*?[:]*[\s:]*([^\n,;]{5,60})";
    "(?:SECTION\s+1|1\.)[^A-Z]*?Company\s*:(?:\s|\n)*([^\n,;]{5,60})";
    "(?:SECTION\s+1|1\.)[^A-Z]*?Supplier\s*:(?:\s|\n)*([^\n,;]{5,60})";
    "(?:SECTION\s+1|1\.)[^A-Z]*?Manufacturer\s*:(?:\s|\n)*([^\n,;]{5,60})";
    "SIGMA-ALDRICH";
    "ALDRICH";
    "SIGMA";
    "FLUKA";
    "SUPELCO";
    "MERCK";
    "Details of the supplier[^:]*?:(?:\s|\n)*([A-Z][^\n,;:]{3,60})";
    "Details of the supplier[^:]*?:(?:\s|\n)*(?:[^A-Za-z\n]*?)([A-Z][a-zA-Z0-9\s,\.\-&]{3,60})";
    "([A-Z][a-zA-Z\s\.,]+(?:Limited|GmbH|Inc|LLC|Co|Company|Corp|Corporation)(?:[^\n]{0,60}?))";
    "SUPPLIER DETAILS[\s:]*[\n]*([^\n,;:]{5,60})";
    "^(?:[^\n]{0,100}?)([A-Z][a-zA-Z0-9\s,\.\-&]{3,60})(?:[^\n]{0,100}?)SAFETY DATA SHEET" ].

(** [extract_pattern_based], line 584. *)
Definition env_patterns : list string :=
  [ "Environmental\s+[Hh]azards?[:\s]+(.*?)(?:\n\s*[A-Z]|\n\n|SECTION)";
    "Hazards? to the environment[:\s]+(.*?)(?:\n\s*[A-Z]|\n\n)";
    "Ecological\s+information[:\s]+(.*?)(?:\n\s*[A-Z]|\n\n|SECTION)";
    "(?:SECTION\s+12|12\.)[^A-Z]*?(.*?)(?:SECTION\s+13|13\.)";
    "Ecotoxicity[:\s]+(.*?)(?:\n\s*[A-Z]|\n\n)";
    "Aquatic\s+toxicity[:\s]+(.*?)(?:\n\s*[A-Z]|\n\n)";
    "Biodegradability[:\s]+(.*?)(?:\n\s*[A-Z]|\n\n)";
    "Bioaccumulation[:\s]+(.*?)(?:\n\s*[A-Z]|\n\n)";
    "Effects\s+on\s+environment[:\s]+(.*?)(?:\n\s*[A-Z]|\n\n)" ].

(** [extract_pattern_based], line 598. *)
Definition reg_patterns : list string :=
  [ "Regulatory(?:\s+information|\s+compliance)[:\s]+(.*?)(?:\n\s*[A-Z]|\n\n|SECTION)";
    "(?:SECTION\s+15|15\.)[^A-Z]*?(.*?)(?:SECTION\s+16|16\.)";
    "Safety[,\s]+health\s+and\s+environmental\s+regulations[:\s]+(.*?)(?:\n\s*[A-Z]|\n\n)";
    "REACH[:\s]+(.*?)(?:\n\s*[A-Z]|\n\n)";
    "TSCA[:\s]+(.*?)(?:\n\s*[A-Z]|\n\n)";
    "OSHA[:\s]+(.*?)(?:\n\s*[A-Z]|\n\n)";
    "EU[:\s]+(.*?)(?:\n\s*[A-Z]|\n\n)";
    "International\s+regulations[:\s]+(.*?)(?:\n\s*[A-Z]|\n\n)";
    "Chemical\s+safety\s+assessment[:\s]+(.*?)(?:\n\s*[A-Z]|\n\n)" ].

(** [extract_section_based], line 710. *)
Definition section_product_patterns : list string :=
  [ "[Pp]roduct\s+name[:\s]+(.*?)(?:\n|$)";
    "[Pp]roduct\s+identifier[:\s]+(.*?)(?:\n|$)" ].

(** [extract_section_based], line 717. *)
Definition section_cas_patterns : list string :=
  [ "CAS(?:[\s-]*No\.?|[-\s]*Number)[:\s]*([\d\-]+)";
    "CAS[:\s]*([\d\-]+)" ].

(** [extract_section_based], line 735. *)
Definition section_precaution_patterns : list string :=
  [ "[Pp]recautionary\s+[Ss]tatements?[:\s]+(.*?)(?:\n\s*[A-Z]|\n\n)";
    "P[- ]?statements?[:\s]+(.*?)(?:\n\s*[A-Z]|\n\n)" ].

(** [extract_section_based], line 745. *)
Definition section_supplier_patterns : list string :=
  [ "(?:Supplier|Manufacturer|Company)[:\s]+(.*?)(?:\n\s*[A-Z]|\n\n|Emergency)";
    "Details of the supplier[:\s]+(.*?)(?:\n\s*[A-Z]|\n\n|Emergency)" ].

(** [extract_composition_info], line 791. *)
Definition composition_patterns : list string :=
  [ "Chemical(?:\s+name|\s+identification)[:\s]+(.*?)(?:\n|$)";
    "Substance(?:\s+name)?[:\s]+(.*?)(?:\n|$)";
    "Formula[:\s]+(.*?)(?:\n|$)" ].

(** [extract_hazard_classification], line 814. *)
Definition hazard_class_patterns : list string :=
  [ "Classification[:\s]+(.*?)(?:\n\s*[A-Z]|\n\n)";
    "Hazard(?:\s+Classification|\s+class)[:\s]+(.*?)(?:\n\s*[A-Z]|\n\n|Precautionary)";
    "(?:GHS|CLP)\s+Classification[:\s]+(.*?)(?:\n\s*[A-Z]|\n\n)" ].

(** [extract_pattern_based], lines 75 and 90. *)
Definition field_mapping : list (string * string) :=
  [ ("Supplier Information", "Supplier/Manufacturer");
    ("Hazard Classification", "Hazards");
    ("Physical Hazard", "Physical Hazards");
    ("CAS Number", "Description");
    ("Chemical Identification", "of the substance or mixture");
    ("Hazardous Substance", "or mixture and uses advised against");
    ("Dangerous Goods Cl", "Dangerous Goods Class");
    ("Environmental Hazards", "Hazards");
    ("Regulatory Compliance Information", "Hazards");
    ("Hazard Statement", "Health Hazards") ].

Definition default_values : list (string * string) :=
  [ ("SDS Available", "");
    ("Identification of the substance/mixture and of the company/undertaking", "");
    ("Hazardous Substance", "");
    ("or mixture and uses advised against", "");
    ("Location", "");
    ("Quantity", "");
    ("Issue Date", "") ].

(** [extract_pattern_based], line 242. *)
Definition hazard_mapping : list (string * string) :=
  [ ("H315", "Causes skin irritation");
    ("H319", "Causes serious eye irritation");
    ("H335", "May cause respiratory irritation");
    ("H360", "May damage fertility or the unborn child");
    ("H360F", "May damage fertility");
    ("H360D", "May damage the unborn child");
    ("H360FD", "May damage fertility. May damage the unborn child") ].

(** The known-substance triggers, lines 268 and 373. *)
Definition nmp_trigger : string :=
  "1-Methyl-2-pyrrolidone|Methyl-2-pyrrolidinone|NMP\b|872-50-4".

Definition nmp_health_hazards : string :=
  "Reproductive Toxicity; Skin irritation; Eye irritation; Specific target organ toxicity, single exposure, Respiratory tract irritation".

(** The patterns [extract_with_patterns] answers with a company name
    (line 620). *)
Definition company_patterns : list string :=
  [ "SIGMA-ALDRICH"; "ALDRICH"; "SIGMA"; "FLUKA"; "SUPELCO"; "MERCK";
    "(?:^|[\s\n])Sigma[\- ]Aldrich(?:[\s\n]|$)";
    "(?:^|[\s\n])Merck(?:[\s\n]|$)";
    "(?:^|[\s\n])Merck\s+Life\s+Science(?:[\s\n]|$)";
    "(?:^|[\s\n])MilliporeSigma(?:[\s\n]|$)";
    "(?:^|[\s\n])Fisher\s+Scientific(?:[\s\n]|$)" ].

(** [get_sections], line 657. *)
Definition section_pattern : string :=
  "(?:SECTION\s+|^)(\d{1,2})(?:[:\.]\s*|\s+)([^\n]+)(?:\n)(.*?)(?=(?:SECTION\s+|^)(\d{1,2})(?:[:\.]\s*|\s+)|$)".

(** [extract_section_based], line 678. *)
Definition section_mapping : list (string * list string) :=
  [ ("1", ["Product Name"; "Supplier Information"]);
    ("2", ["Hazard Classification"]);
    ("3", ["Chemical Identification"; "CAS Number"]);
    ("4", ["First Aid Measures"]);
    ("5", ["Firefighting Measures"]);
    ("7", ["Precautionary Statements"]);
    ("12", ["Environmental Hazards"]);
    ("15", ["Regulatory Compliance Information"]) ].

(** [extract_section_based], line 765. *)
Definition section_field_mapping : list (string * string) :=
  [ ("Supplier Information", "Supplier/Manufacturer");
    ("Hazard Classification", "Hazards");
    ("Precautionary Statements", "Response Statement") ].

(** [extract_first_aid_measures], line 875. *)
Definition first_aid_categories : list string :=
  [ "Inhalation"; "Skin contact"; "Eye contact"; "Ingestion" ].

(** [extract_firefighting_measures], line 910. *)
Definition firefighting_sections : list (string * string) :=
  [ ("Extinguishing media",
     "([Ss]uitable|[Rr]ecommended)\s+[Ee]xtinguishing\s+[Mm]edia:?\s*(.*?)(?=\n\s*[A-Z]|$)");
    ("Special hazards",
     "([Ss]pecial|[Uu]nusual)\s+[Hh]azards:?\s*(.*?)(?=\n\s*[A-Z]|$)");
    ("Advice for firefighters",
     "([Aa]dvice|[Pp]rotection)\s+for\s+[Ff]irefighters:?\s*(.*?)(?=\n\s*[A-Z]|$)");
    ("Hazardous combustion",
     "[Hh]azardous\s+[Cc]ombustion\s+[Pp]roducts:?\s*(.*?)(?=\n\s*[A-Z]|$)") ].

End Patterns.

Import Patterns.

(* ================================================================== *)
(** * [sds_extractor.py] *)

(** [m.group(i)] where the group took part in the match.  In every pattern
    of the source the groups that are read stand on the path every match
    takes, so the [None] of [Re.group] never reaches this function. *)
Definition group_str (m : rmatch) (i : nat) : string := or_empty (group m i).

(** [extract_with_patterns]: the first pattern that matches gives the
    answer - a company name for the patterns of [company_patterns], else the
    first group, or the whole match when the pattern has no group. *)
Fixpoint extract_with_patterns (text : string) (patterns : list string) : string :=
  match patterns with
  | [] => ""
  | pattern :: rest =>
      if in_list pattern company_patterns && searchb FIS pattern text then
        let company_name :=
          replace "(?:[\s\n]|$)" "" (replace "(?:^|[\s\n])" "" pattern) in
        let company_name :=
          if contains "|" company_name then split_first "|" company_name
          else company_name in
        replace "[\- ]" "-" company_name
      else
        match search FIS pattern text with
        | Some matches =>
            if (0 <? groups_of pattern)%nat then strip (group_str matches 1)
            else strip (m_group0 matches)
        | None => extract_with_patterns text rest
        end
  end.

(** [clean_section_content], and the tail of [extract_first_aid_measures]
    and [extract_firefighting_measures]. *)
Definition truncate (limit : nat) (s : string) : string :=
  if (limit <? String.length s)%nat then take (limit - 3) s ++ "..." else s.

Definition clean_section_content (content : string) : string :=
  truncate 500 (strip (sub F0 "\s+" " " content)).

Record section : Type := mkSection { title : string; content : string }.

(** [get_sections] *)
Definition get_sections (text : string) : Dict.t section :=
  fold_left
    (fun sections m =>
       Dict.set (group_str m 1)
                (mkSection (strip (group_str m 2)) (strip (group_str m 3)))
                sections)
    (finditer FISM section_pattern text) [].

(** [extract_composition_info] *)
Definition extract_composition_info (section_content : string) : string :=
  let chem_id := extract_with_patterns section_content composition_patterns in
  if nonempty chem_id then chem_id
  else
    let cleaned := sub F0 "(?:CAS|EC|Index)[\s-]*No\.?.*?(?:\n|$)" "" section_content in
    let cleaned := strip (sub F0 "\s+" " " cleaned) in
    truncate 200 cleaned.

(** [extract_hazard_classification] *)
Definition extract_hazard_classification (section_content : string) : string :=
  let hazard_class := extract_with_patterns section_content hazard_class_patterns in
  if nonempty hazard_class then hazard_class
  else
    match findall F0 "H\d{3}(?:[+]\d{3})*[:\s]+(.*?)(?:\n|$)" section_content with
    | [] => hazard_class
    | h_statements => join ", " h_statements
    end.

(** [extract_precautionary_statements] *)
Definition extract_precautionary_statements (section_content : string) : string :=
  match findall F0 "P\d{3}(?:[+]\d{3})*[:\s]+(.*?)(?:\n|$)" section_content with
  | [] =>
      let storage_match :=
        search FI "Storage[:\s]+(.*?)(?:\n\s*[A-Z]|\n\n|$)" section_content in
      let handling_match :=
        search FI "Handling[:\s]+(.*?)(?:\n\s*[A-Z]|\n\n|$)" section_content in
      join " "
        ((match storage_match with
          | Some m => [append "Storage: " (strip (group_str m 1))]
          | None => []
          end ++
          match handling_match with
          | Some m => [append "Handling: " (strip (group_str m 1))]
          | None => []
          end)%list)
  | p_statements => join ", " p_statements
  end.

(** [extract_supplier_info] *)
Definition extract_supplier_info (section_content : string) : string :=
  let address_match :=
    search FI "Address[:\s]+(.*?)(?:\n\s*[A-Z]|\n\n|$)" section_content in
  let company_match :=
    search FI "Company[:\s]+(.*?)(?:\n\s*[A-Z]|\n\n|$)" section_content in
  let phone_match :=
    search FI "(?:Phone|Tel)[:\s]+(.*?)(?:\n|$)" section_content in
  join ", "
    ((match company_match with
      | Some m => [strip (group_str m 1)]
      | None => []
      end ++
      match address_match with
      | Some m => [strip (group_str m 1)]
      | None => []
      end ++
      match phone_match with
      | Some m => [append "Phone: " (strip (group_str m 1))]
      | None => []
      end)%list).

(** The loop of [extract_first_aid_measures] over the sub-headings. *)
Definition first_aid_measure (section_content category : string)
    (measures : Dict.t string) : Dict.t string :=
  match search FI (category ++ "[^\n]*?:([^\n]*)") section_content with
  | Some m =>
      match search FIS (category ++ "[^\n]*?:(.*?)(?=\n\s*[A-Z][a-z]+\s*:|\Z)")
                   section_content with
      | Some extended_match => Dict.set category (strip (group_str extended_match 1)) measures
      | None => Dict.set category (strip (group_str m 1)) measures
      end
  | None => measures
  end.

(** ["\n".join(paragraphs[start_idx:start_idx+n])] *)
Definition paragraphs_from (start_idx n : nat) (paragraphs : list string) : string :=
  join nl (firstn n (skipn start_idx paragraphs)).

(** [extract_first_aid_measures] *)
Definition extract_first_aid_measures (section_content : string) : string :=
  let measures :=
    fold_left (fun ms category => first_aid_measure section_content category ms)
              first_aid_categories [] in
  let first_aid_measures :=
    match measures with
    | _ :: _ =>
        fold_left (fun acc kv => acc ++ fst kv ++ ": " ++ snd kv ++ nl) measures ""
    | [] =>
        match findall F0 "([^\n]+)" section_content with
        | [] => ""
        | (p0 :: _) as paragraphs =>
            let start_idx := if searchb FI "first aid" p0 then 1 else 0 in
            paragraphs_from start_idx 3 paragraphs
        end
    end in
  let first_aid_measures := sub F0 "\s+" " " first_aid_measures in
  strip (truncate 500 first_aid_measures).

(** The loop of [extract_firefighting_measures] over the sub-sections. *)
Definition firefighting_section (section_content : string)
    (extracted : Dict.t string) (np : string * string) : Dict.t string :=
  let '(name, pattern) := np in
  match search FS pattern section_content with
  | Some m =>
      let extracted_text :=
        if (1 <? groups_of pattern)%nat then strip (group_str m 2)
        else strip (group_str m 1) in
      Dict.set name (sub F0 "\s+" " " extracted_text) extracted
  | None => extracted
  end.

(** [extract_firefighting_measures] *)
Definition extract_firefighting_measures (section_content : string) : string :=
  let extracted_sections :=
    fold_left (firefighting_section section_content) firefighting_sections [] in
  let firefighting_info :=
    match extracted_sections with
    | _ :: _ =>
        fold_left (fun acc kv => acc ++ fst kv ++ ": " ++ snd kv ++ nl)
                  extracted_sections ""
    | [] =>
        match findall F0 "([^\n]+)" section_content with
        | [] => ""
        | (p0 :: _) as paragraphs =>
            let start_idx := if searchb FI "firefighting" p0 then 1 else 0 in
            paragraphs_from start_idx 2 paragraphs
        end
    end in
  let firefighting_info := sub F0 "\s+" " " firefighting_info in
  strip (truncate 500 firefighting_info).

(** One field of one section in [extract_section_based]. *)
Definition section_field (section_content field : string) : option string :=
  if String.eqb field "Product Name" then
    Some (extract_with_patterns section_content section_product_patterns)
  else if String.eqb field "CAS Number" then
    Some (extract_with_patterns section_content section_cas_patterns)
  else if String.eqb field "Chemical Identification" then
    Some (extract_composition_info section_content)
  else if String.eqb field "Hazard Classification" then
    Some (extract_hazard_classification section_content)
  else if String.eqb field "First Aid Measures" then
    Some (extract_first_aid_measures section_content)
  else if String.eqb field "Precautionary Statements" then
    let precautions := extract_with_patterns section_content section_precaution_patterns in
    Some (if nonempty precautions then precautions
          else extract_precautionary_statements section_content)
  else if String.eqb field "Supplier Information" then
    let supplier_info := extract_with_patterns section_content section_supplier_patterns in
    Some (if nonempty supplier_info then supplier_info
          else extract_supplier_info section_content)
  else if String.eqb field "Firefighting Measures" then
    Some (extract_firefighting_measures section_content)
  else if String.eqb field "Environmental Hazards" then
    Some (clean_section_content section_content)
  else if String.eqb field "Regulatory Compliance Information" then
    Some (clean_section_content section_content)
  else None.

(** The renaming loops: [data[new] = data[old]] when [data[old]] is there
    and not empty. *)
Definition apply_mapping (data : Dict.t string) (m : string * string) : Dict.t string :=
  match Dict.get (fst m) data with
  | Some v => if nonempty v then Dict.set (snd m) v data else data
  | None => data
  end.

(** [extract_section_based] *)
Definition extract_section_based (text : string) : Dict.t string :=
  let sections := get_sections text in
  let data :=
    fold_left
      (fun data sf =>
         match Dict.get (fst sf) sections with
         | Some section_data =>
             fold_left
               (fun data field =>
                  match section_field (content section_data) field with
                  | Some v => Dict.set field v data
                  | None => data
                  end)
               (snd sf) data
         | None => data
         end)
      section_mapping [] in
  fold_left apply_mapping section_field_mapping data.

(** The default loop of [apply_field_mappings]: a key that is missing or
    empty gets its default. *)
Definition apply_default (data : Dict.t string) (fd : string * string) : Dict.t string :=
  match Dict.get (fst fd) data with
  | Some v => if nonempty v then data else Dict.set (fst fd) (snd fd) data
  | None => Dict.set (fst fd) (snd fd) data
  end.

(** [apply_field_mappings], local to [extract_pattern_based]. *)
Definition apply_field_mappings (data_dict : Dict.t string) : Dict.t string :=
  fold_left apply_default default_values
    (fold_left apply_mapping field_mapping data_dict).

(** [re.search(nmp_trigger, text, re.IGNORECASE)] *)
Definition is_nmp (text : string) : bool := searchb FI nmp_trigger text.

(** The H-codes of the text, found with [re.findall] (lines 235, 253). *)
Definition h_codes_of (text : string) : list string :=
  findall F0 "(H\d{3}(?:\+\d{3})*)" text.

(** The generic branch for Health Hazards, lines 274 to 304. *)
Definition generic_health_hazards (text : string) : string :=
  let c1 :=
    if searchb FI "H360|H361|[Rr]epr\.\s*\d+|[Rr]eproductive\s+[Tt]oxicity" text
    then ["Reproductive Toxicity"] else [] in
  let c2 :=
    if searchb FI "H315|[Ss]kin\s*[Ii]rrit\.\s*\d+" text
    then ["Skin irritation"] else [] in
  let c3 :=
    if searchb FI "H319|H320|[Ee]ye\s*[Ii]rrit\.\s*\d+" text
    then ["Eye irritation"] else [] in
  let c4 :=
    if searchb FI "H335|H336|H370|H371|STOT\s*SE\s*\d+|[Ss]pecific\s+[Tt]arget\s+[Oo]rgan\s+[Tt]oxicity.*[Ss]ingle" text
    then
      if searchb FI "H335|[Rr]espiratory" text
      then ["Specific target organ toxicity, single exposure, Respiratory tract irritation"]
      else ["Specific target organ toxicity, single exposure"]
    else [] in
  let c5 :=
    if searchb FI "H372|H373|STOT\s*RE\s*\d+|[Ss]pecific\s+[Tt]arget\s+[Oo]rgan\s+[Tt]oxicity.*[Rr]epeated" text
    then ["Specific target organ toxicity, repeated exposure"] else [] in
  let hazard_components := (c1 ++ c2 ++ c3 ++ c4 ++ c5)%list in
  let c6 :=
    if searchb FI "H335|[Rr]espiratory\s+[Tt]ract\s+[Ii]rritation" text
       && negb (existsb (contains "Respiratory") hazard_components)
    then ["Respiratory tract irritation"] else [] in
  join "; " (hazard_components ++ c6)%list.

(** The classification table for Physical Hazards, lines 312 to 350. *)
Definition physical_hazard_table : list (string * string) :=
  [ ("H22[4-6]|[Ff]lam\.\s*[Ll]iq\.\s*\d+|[Ff]lammable\s+[Ll]iquid", "Flammable liquid");
    ("H228|[Ff]lam\.\s*[Ss]ol\.\s*\d+|[Ff]lammable\s+[Ss]olid", "Flammable solid");
    ("H24[0-2]|[Ss]elf\s*-\s*[Rr]eact\.\s*\d+|[Ss]elf\s*-\s*[Rr]eactive", "Self-reactive");
    ("H250|[Pp]yr\.\s*\d+|[Pp]yrophoric", "Pyrophoric");
    ("H25[1-2]|[Ss]elf\s*-\s*[Hh]eat\.\s*\d+|[Ss]elf\s*-\s*[Hh]eating", "Self-heating");
    ("H26[0-1]|[Ww]ater\s*-\s*[Rr]eact\.\s*\d+|[Ee]mit[s]?\s+[Ff]lammable\s+[Gg]as(?:es)?",
     "In contact with water emits flammable gases");
    ("H27[1-2]|[Oo]x\.\s*[Ll]iq\.\s*\d+|[Oo]x\.\s*[Ss]ol\.\s*\d+|[Oo]xidiz(?:ing|er)", "Oxidizing");
    ("H24[0-2]|[Oo]rg\.\s*[Pp]erox\.\s*\d+|[Oo]rganic\s+[Pp]eroxide", "Organic peroxide");
    ("H290|[Mm]et\.\s*[Cc]orr\.\s*\d+|[Cc]orrosive\s+to\s+metal", "Corrosive to metals") ].

Definition physical_hazards_of (text : string) : string :=
  join "; "
    (map snd (filter (fun pc => searchb FI (fst pc) text) physical_hazard_table)).

(** The first of [smell_words] found in the text as a word, if any. *)
Fixpoint first_smell_word (text : string) (words : list string) : option string :=
  match words with
  | [] => None
  | word :: rest =>
      if searchb FI ("\b" ++ word ++ "\b") text then Some word
      else first_smell_word text rest
  end.

(** The generic branch for Odour, lines 376 to 400. *)
Definition generic_odour (text : string) : string :=
  let odor := extract_with_patterns text odor_patterns in
  if searchb F0 (latin1 "\d+\s*[°C]") odor || searchb F0 "^\s*\d+\s*$" odor then
    match search F0 "[Oo]dou?r[^:]*?:\s*([a-zA-Z\s,]+)[^a-zA-Z]" text with
    | Some smell_descriptors => strip (group_str smell_descriptors 1)
    | None =>
        match first_smell_word text smell_words with
        | Some word => word
        | None => odor
        end
    end
  else odor.

Section SetOrder.

(** The order in which [set(l)] is iterated: some arrangement of the
    distinct elements of [l], which the language leaves open. *)
Variable set_iter : list string -> list string.

(** Health Category, lines 165 to 191. *)
Definition health_category_of (text : string) : string :=
  let health_cat := extract_with_patterns text health_category_patterns in
  if nonempty health_cat then health_cat
  else
    match search FIS "SECTION\s+2[:\.\s]+.*?\n(.*?)(?=SECTION\s+3|$)" text with
    | Some section_2_match =>
        let section_2_content := group_str section_2_match 1 in
        let cat_matches :=
          findall FI "(?:Category|Cat\.?)\s*(\d[A-Z]?)" section_2_content in
        let health_matches :=
          findall FI "(?:skin|eye|repro|reproductive|toxicity|respir|acute|damage|irritation)[^,\n]*?(?:Category|Cat\.?)[^,\n]*?(\d[A-Z]?)"
                  section_2_content in
        match (cat_matches ++ health_matches)%list with
        | [] => health_cat
        | category_matches => join ", " (set_iter category_matches)
        end
    | None => health_cat
    end.

(** Hazard Statement, lines 231 to 262. *)
Definition hazard_statement_of (text : string) : string :=
  let hazard_stmt := extract_with_patterns text hazard_stmt_patterns in
  let hazard_stmt :=
    if nonempty hazard_stmt then hazard_stmt
    else
      match h_codes_of text with
      | [] => hazard_stmt
      | h_codes => join ", " (set_iter h_codes)
      end in
  let hazard_descriptions :=
    flat_map
      (fun code =>
         match Dict.get (split_first "+" code) hazard_mapping with
         | Some description => [code ++ ": " ++ description]
         | None => []
         end)
      (h_codes_of text) in
  match hazard_descriptions with
  | _ :: _ => if nonempty hazard_stmt then hazard_stmt else join "; " hazard_descriptions
  | [] => hazard_stmt
  end.

(** [extract_pattern_based] *)
Definition extract_pattern_based (text : string) : Dict.t string :=
  let data := [] in
  let data := Dict.set "Health Category" (health_category_of text) data in
  let data := Dict.set "Physical Category"
                (extract_with_patterns text physical_category_patterns) data in
  let data := Dict.set "Hazard Statement" (hazard_statement_of text) data in
  let health_hazards :=
    if is_nmp text then nmp_health_hazards else generic_health_hazards text in
  let data := Dict.set "Health Hazards" health_hazards data in
  let data := Dict.set "Physical Hazards" (physical_hazards_of text) data in
  let data := Dict.set "Flash Point (Deg C)"
                (extract_with_patterns text flash_point_patterns) data in
  let data := Dict.set "Appearance"
                (extract_with_patterns text appearance_patterns) data in
  let data := Dict.set "Odour"
                (if is_nmp text then "amine" else generic_odour text) data in
  let data := Dict.set "Colour" (extract_with_patterns text color_patterns) data in
  let data := Dict.set "Issue Date" "" data in
  let data := Dict.set "SDS Available" "" data in
  let data := Dict.set "Packing Group"
                (extract_with_patterns text packing_group_patterns) data in
  let data := Dict.set "Dangerous Goods Class"
                (extract_with_patterns text dangerous_goods_patterns) data in
  let data := Dict.set "Storage Use"
                (extract_with_patterns text storage_patterns) data in
  let data := Dict.set "Product Name"
                (extract_with_patterns text product_patterns) data in
  let data := Dict.set "CAS Number" (extract_with_patterns text cas_patterns) data in
  let data := Dict.set "Chemical Identification"
                (extract_with_patterns text chem_id_patterns) data in
  let data := Dict.set "Precautionary Statements"
                (extract_with_patterns text precautionary_patterns) data in
  let data := Dict.set "First Aid Measures"
                (extract_with_patterns text first_aid_patterns) data in
  let data := Dict.set "Firefighting Measures"
                (extract_with_patterns text firefighting_patterns) data in
  let supplier := extract_with_patterns text supplier_patterns in
  let data := Dict.set "Supplier Information" supplier data in
  let data := Dict.set "Supplier/Manufacturer" supplier data in
  let data := Dict.set "Environmental Hazards"
                (extract_with_patterns text env_patterns) data in
  let data := Dict.set "Regulatory Compliance Information"
                (extract_with_patterns text reg_patterns) data in
  apply_field_mappings data.

(** [d.get(k, "")] *)
Definition get_or_empty (k : string) (d : Dict.t string) : string :=
  match Dict.get k d with Some v => v | None => "" end.

(** The merge of Automatic mode for one field, lines 36 to 43. *)
Definition merge_field (pattern_data section_data data : Dict.t string)
    (field : string) : Dict.t string :=
  let pattern_value := get_or_empty field pattern_data in
  let section_value := get_or_empty field section_data in
  if (3 <? String.length (strip pattern_value))%nat then Dict.set field pattern_value data
  else if (3 <? String.length (strip section_value))%nat then Dict.set field section_value data
  else data.

(** The loops of the two single-strategy modes, lines 48 and 55. *)
Definition copy_field (source data : Dict.t string) (field : string) : Dict.t string :=
  match Dict.get field source with
  | Some v => Dict.set field v data
  | None => data
  end.

(** The clean-up of one value, lines 62 to 66. *)
Definition clean_value (v : string) : string :=
  let v := strip (sub F0 "\s+" " " v) in
  if (500 <? String.length v)%nat then take 497 v ++ "..." else v.

(** The record before the clean-up loop. *)
Definition select_data (text method : string) : Dict.t string :=
  let data := map (fun field => (field, "")) required_fields in
  if String.eqb method "Automatic" then
    let pattern_data := extract_pattern_based text in
    let section_data := extract_section_based text in
    fold_left (merge_field pattern_data section_data) required_fields data
  else if String.eqb method "Section-based" then
    let section_data := extract_section_based text in
    fold_left (copy_field section_data) required_fields data
  else
    let pattern_data := extract_pattern_based text in
    fold_left (copy_field pattern_data) required_fields data.

(** [extract_sds_data] *)
Definition extract_sds_data (text method : string) : Dict.t string :=
  map (fun kv => (fst kv, clean_value (snd kv))) (select_data text method).

End SetOrder.

(** One iteration order a [set] can have: first occurrences, in order. *)
Fixpoint dedup (l : list string) : list string :=
  match l with
  | [] => []
  | x :: rest => x :: filter (fun y => negb (String.eqb x y)) (dedup rest)
  end.

(* ================================================================== *)
(** * Python values, exceptions and effects *)

Module Py.

Set Warnings "-register-all".

(** What [json.loads] can return, which is also all the model path ever
    stores in a record.  A float keeps its [repr] and whether it is
    non-zero. *)
Inductive value : Type :=
| VNone
| VBool (b : bool)
| VInt (z : Z)
| VFloat (repr : string) (nonzero : bool)
| VStr (s : string)
| VList (l : list value)
| VDict (d : list (string * value)).

Inductive pytype : Type :=
| TNone | TBool | TInt | TFloat | TStr | TList | TDict.

Definition type_of (v : value) : pytype :=
  match v with
  | VNone => TNone
  | VBool _ => TBool
  | VInt _ => TInt
  | VFloat _ _ => TFloat
  | VStr _ => TStr
  | VList _ => TList
  | VDict _ => TDict
  end.

(** The errors the interpreter itself raises in the code modelled. *)
Inductive interp_error : Type :=
| NotIterable (t : pytype)
| NoItemAssignment (t : pytype)
| BadSubscript (t : pytype)
| NoAttribute (t : pytype) (attr : string)
| JoinItem (index : nat) (t : pytype)
| KeyError (key : string)
| UnboundLocal (var : string).

(** An exception: one raised by a library with its message ([str(e)]), or
    one of the interpreter's. *)
Inductive exn : Type :=
| LibError (msg : string)
| InterpError (e : interp_error).

(** [bool(v)] *)
Definition truthy (v : value) : bool :=
  match v with
  | VNone => false
  | VBool b => b
  | VInt z => negb (Z.eqb z 0)
  | VFloat _ nz => nz
  | VStr s => nonempty s
  | VList l => match l with [] => false | _ => true end
  | VDict d => match d with [] => false | _ => true end
  end.

Definition is_list (v : value) : bool :=
  match v with VList _ => true | _ => false end.

Definition is_dict (v : value) : bool :=
  match v with VDict _ => true | _ => false end.

Definition str_eq_value (s : string) (v : value) : bool :=
  match v with VStr s' => String.eqb s s' | _ => false end.

(** [key in v] for a string [key]. *)
Definition py_contains (key : string) (v : value) : exn + bool :=
  match v with
  | VDict d => inr (Dict.mem key d)
  | VList l => inr (existsb (str_eq_value key) l)
  | VStr s => inr (contains key s)
  | _ => inl (InterpError (NotIterable (type_of v)))
  end.

(** [v[key] = x] for a string [key]. *)
Definition py_setitem (v : value) (key : string) (x : value) : exn + value :=
  match v with
  | VDict d => inr (VDict (Dict.set key x d))
  | VList _ => inl (InterpError (BadSubscript TList))
  | _ => inl (InterpError (NoItemAssignment (type_of v)))
  end.

(** [v[key]] for a string [key]. *)
Definition py_getitem (v : value) (key : string) : exn + value :=
  match v with
  | VDict d =>
      match Dict.get key d with
      | Some x => inr x
      | None => inl (InterpError (KeyError key))
      end
  | _ => inl (InterpError (BadSubscript (type_of v)))
  end.

(** [v.get(key, default)] *)
Definition py_get (v : value) (key : string) (default : value) : exn + value :=
  match v with
  | VDict d =>
      match Dict.get key d with
      | Some x => inr x
      | None => inr default
      end
  | _ => inl (InterpError (NoAttribute (type_of v) "get"))
  end.

(** [v.items()] *)
Definition py_items (v : value) : exn + list (string * value) :=
  match v with
  | VDict d => inr d
  | _ => inl (InterpError (NoAttribute (type_of v) "items"))
  end.

(** [v.lower()] *)
Definition py_lower_of (v : value) : exn + string :=
  match v with
  | VStr s => inr (py_lower s)
  | _ => inl (InterpError (NoAttribute (type_of v) "lower"))
  end.

(** [sep.join(l)] for a list of values: every item has to be a [str]. *)
Fixpoint py_join_from (index : nat) (sep : string) (l : list value) : exn + string :=
  match l with
  | [] => inr ""
  | x :: rest =>
      match x with
      | VStr s =>
          match rest with
          | [] => inr s
          | _ =>
              match py_join_from (S index) sep rest with
              | inr t => inr (s ++ sep ++ t)
              | inl e => inl e
              end
          end
      | _ => inl (InterpError (JoinItem index (type_of x)))
      end
  end.

Definition py_join (sep : string) (l : list value) : exn + string :=
  py_join_from 0 sep l.

(** The services a process can be configured with. *)
Inductive service : Type := OpenAI | Anthropic.

(** The prompts of the two modules; each is completed with (a prefix of)
    the document text. *)
Inductive prompt : Type :=
| PromptExtract
| PromptSections
| PromptIdentification
| PromptHazard
| PromptFirstAid
| PromptFirefighting
| PromptPhysical.

Record request : Type := mkRequest
  { rq_service : service; rq_prompt : prompt; rq_text : string }.

(** What a run does to the outside. *)
Inductive event : Type :=
| ECall (rq : request)
| ESleep (seconds : nat)
| ERead (path : string).

Definition is_call (e : event) : bool :=
  match e with ECall _ => true | _ => false end.

Definition is_read (e : event) : bool :=
  match e with ERead _ => true | _ => false end.

Definition calls (tr : list event) : nat := List.length (filter is_call tr).
Definition reads (tr : list event) : nat := List.length (filter is_read tr).

Fixpoint sleeps (tr : list event) : list nat :=
  match tr with
  | [] => []
  | ESleep n :: rest => n :: sleeps rest
  | _ :: rest => sleeps rest
  end.

(** The state a computation threads: the events so far, oldest first, and
    the dictionary bound to [results] in [hierarchical_extraction], which
    its handler still sees after an exception. *)
Record world : Type := mkWorld { trace : list event; results_var : value }.

Definition M (A : Type) : Type := world -> (exn + A) * world.

Definition ret {A} (a : A) : M A := fun w => (inr a, w).

Definition raise {A} (e : exn) : M A := fun w => (inl e, w).

Definition bind {A B} (m : M A) (k : A -> M B) : M B :=
  fun w =>
    match m w with
    | (inr a, w') => k a w'
    | (inl e, w') => (inl e, w')
    end.

(** [try: m  except Exception as e: h e] *)
Definition catch {A} (m : M A) (h : exn -> M A) : M A :=
  fun w =>
    match m w with
    | (inr a, w') => (inr a, w')
    | (inl e, w') => h e w'
    end.

(** A pure step that can raise. *)
Definition lift {A} (r : exn + A) : M A :=
  match r with
  | inr a => ret a
  | inl e => raise e
  end.

Definition emit (e : event) : M unit :=
  fun w => (inr tt, mkWorld (trace w ++ [e]) (results_var w)).

Definition get_results : M value := fun w => (inr (results_var w), w).

Definition set_results (v : value) : M unit :=
  fun w => (inr tt, mkWorld (trace w) v).

Definition world0 : world := mkWorld [] (VDict []).

End Py.

Import Py.

Declare Scope py_scope.
Delimit Scope py_scope with py.
Notation "x <- m ;; k" := (bind m (fun x => k))
  (at level 61, m at next level, right associativity) : py_scope.
Notation "m ;;; k" := (bind m (fun _ => k))
  (at level 61, right associativity) : py_scope.

(* ================================================================== *)
(** * [ai_extractor.py] *)

(** Lines 200 and 784: the fields every model record is completed with. *)
Definition expected_fields : list string :=
  [ "Product Name"; "CAS Number"; "Chemical Identification";
    "Health Hazards"; "Health Category"; "Physical Hazards";
    "Physical Category"; "Flash Point"; "Appearance"; "Odour";
    "Colour"; "Storage Use"; "Supplier/Manufacturer";
    "Dangerous Goods Class"; "Packing Group"; "Environmental Hazards";
    "First Aid Measures"; "Firefighting Measures" ].

Definition max_retries : nat := 10.
Definition backoff_time : nat := 10.

(** The fenced block and the brace span looked for in a reply. *)
Definition fence_pattern : string := "```json\s*(.*?)\s*```".
Definition brace_pattern : string := "({.*})".

(** [{"error": msg}] *)
Definition error_result (msg : string) : value := VDict [("error", VStr msg)].

(** [os.path.basename] on a POSIX path. *)
Fixpoint basename (path : string) : string :=
  match path with
  | "" => ""
  | String c rest =>
      if contains "/" rest then basename rest
      else if Ascii.eqb c "/" then rest else path
  end.

(** Where a block of a function leaves it: at a [return], or going on with
    a value. *)
Inductive flow (A : Type) : Type :=
| Return (result : value)
| Continue (a : A).
Arguments Return {A} result.
Arguments Continue {A} a.

Section World.

(** The process-wide configuration: [None] when no client was built. *)
Variable ai_service : option service.

(** The hosted model: what the [n]-th call of a run answers to a request,
    either the text of the reply or the message of the exception raised. *)
Variable provider : nat -> request -> string + string.

(** [json.loads]: the value decoded, or the message of the
    [JSONDecodeError]. *)
Variable json_loads : string -> string + value.

(** [str(v)] and [format(v)] for a value that is not a [str]. *)
Variable repr_of : value -> string.

(** The wording of the interpreter's own errors. *)
Variable interp_str : interp_error -> string.

(** The text the PDF reader or the OCR gives for a path at the [n]-th
    read of a run, or the message of the exception raised. *)
Variable acquire_text : nat -> string -> string + string.

Variable set_iter : list string -> list string.

Local Open Scope py_scope.

(** [str(e)] *)
Definition exn_str (e : exn) : string :=
  match e with
  | LibError msg => msg
  | InterpError ie => interp_str ie
  end.

(** [str(v)] *)
Definition py_str (v : value) : string :=
  match v with
  | VStr s => s
  | _ => repr_of v
  end.

(** One call of the client: logged, and answered by [provider]. *)
Definition call_provider (s : service) (p : prompt) (text : string) : M string :=
  fun w =>
    let rq := mkRequest s p text in
    let w' := mkWorld (trace w ++ [ECall rq]) (results_var w) in
    match provider (calls (trace w)) rq with
    | inr reply => (inr reply, w')
    | inl msg => (inl (LibError msg), w')
    end.

(** [time.sleep] *)
Definition sleep (seconds : nat) : M unit := emit (ESleep seconds).

(** [json.loads] as a step that raises. *)
Definition loads (s : string) : exn + value :=
  match json_loads s with
  | inr v => inr v
  | inl msg => inl (LibError msg)
  end.

(** The classification of line 160. *)
Definition is_rate_limit (msg : string) : bool :=
  contains "429" msg || contains "too many requests" (py_lower msg).

(** Where the retry loop of lines 137 to 170 ends: with the text of a
    reply, with a [return] of an error, or by running out of attempts with
    [response_text] never bound. *)
Inductive loop_end : Type :=
| Got (response_text : string)
| Gave_up (result : value)
| Exhausted.

(** The [while retry_count < max_retries] loop; [remaining] is
    [max_retries - retry_count]. *)
Fixpoint retry_loop (text : string) (remaining retry_count : nat) : M loop_end :=
  match remaining with
  | O => ret Exhausted
  | S remaining' =>
      catch
        (response_text <- call_provider Anthropic PromptExtract text ;;
         ret (Got response_text))
        (fun e =>
           let retry_count := S retry_count in
           if is_rate_limit (exn_str e) then
             sleep (backoff_time * retry_count) ;;;
             retry_loop text remaining' retry_count
           else if (retry_count <? max_retries)%nat then
             sleep 2 ;;;
             retry_loop text remaining' retry_count
           else
             ret (Gave_up (error_result
                    ("Anthropic API extraction failed after "
                       ++ str_of_nat max_retries ++ " attempts: " ++ exn_str e))))
  end.

(** Lines 172 to 193: the reply is turned into [response_data]. *)
Definition process_response (response_text : option string) : flow value :=
  match response_text with
  | None =>
      Return (error_result ("Failed to process Anthropic response: "
                              ++ interp_str (UnboundLocal "response_text")))
  | Some response_text =>
      match search FS fence_pattern response_text with
      | Some json_match =>
          match json_loads (group_str json_match 1) with
          | inr data => Continue data
          | inl msg =>
              Return (error_result ("Failed to process Anthropic response: " ++ msg))
          end
      | None =>
          match json_loads response_text with
          | inr data => Continue data
          | inl _ =>
              match search FS brace_pattern response_text with
              | Some potential_json =>
                  match json_loads (group_str potential_json 1) with
                  | inr data => Continue data
                  | inl _ => Return (error_result "Failed to parse AI response")
                  end
              | None => Continue (VDict [])
              end
          end
      end
  end.

(** Lines 113 to 197: the call and the decoding of the reply. *)
Definition request_data (s : service) (text : string) : M (flow value) :=
  match s with
  | OpenAI =>
      catch
        (response_text <- call_provider OpenAI PromptExtract text ;;
         response_data <- lift (loads response_text) ;;
         ret (Continue response_data))
        (fun e => ret (Return (error_result ("AI extraction failed: " ++ exn_str e))))
  | Anthropic =>
      sleep 3 ;;;
      e <- retry_loop text max_retries 0 ;;
      match e with
      | Got response_text => ret (process_response (Some response_text))
      | Gave_up result => ret (Return result)
      | Exhausted => ret (process_response None)
      end
  end.

(** Lines 210 to 212 *)
Definition add_missing (response_data : value) (field : string) : exn + value :=
  match py_contains field response_data with
  | inr true => inr response_data
  | inr false => py_setitem response_data field (VStr "")
  | inl e => inl e
  end.

Fixpoint add_missing_fields (response_data : value) (fields : list string)
  : exn + value :=
  match fields with
  | [] => inr response_data
  | field :: rest =>
      match add_missing response_data field with
      | inr data => add_missing_fields data rest
      | inl e => inl e
      end
  end.

(** The triggers of line 215. *)
Definition mentions_nmp (text : string) : bool :=
  let t := py_lower text in
  contains "1-methyl-2-pyrrolidone" t || contains "1-methyl-2-pyrrolidinone" t
  || contains "nmp" t || contains "872-50-4" t.

(** Lines 215 to 218 *)
Definition nmp_override (text : string) (response_data : value) : exn + value :=
  if mentions_nmp text then
    match py_setitem response_data "Health Hazards" (VStr nmp_health_hazards) with
    | inr data => py_setitem data "Odour" (VStr "amine")
    | inl e => inl e
    end
  else inr response_data.

(** ["; ".join(str(item) for item in value)] *)
Definition join_items (l : list value) : string := join "; " (map py_str l).

(** Lines 221 to 223 *)
Definition flatten_lists (response_data : value) : exn + value :=
  match py_items response_data with
  | inr items =>
      inr (VDict (map (fun kv =>
                         match snd kv with
                         | VList l => (fst kv, VStr (join_items l))
                         | _ => kv
                         end) items))
  | inl e => inl e
  end.

(** Lines 199 to 225 *)
Definition finish_record (text : string) (response_data : value) : exn + value :=
  match add_missing_fields response_data expected_fields with
  | inr data =>
      match nmp_override text data with
      | inr data => flatten_lists data
      | inl e => inl e
      end
  | inl e => inl e
  end.

(** [extract_with_ai]: neither [sds_filename] nor [light_mode] is read. *)
Definition extract_with_ai (text : string) (sds_filename : option string)
    (light_mode : bool) : M value :=
  match ai_service with
  | None => ret (error_result "No AI API keys available")
  | Some s =>
      f <- request_data s text ;;
      match f with
      | Return result => ret result
      | Continue response_data => lift (finish_record text response_data)
      end
  end.

(** The reading of the document, lines 244 to 247. *)
Definition read_document (pdf_path : string) : M string :=
  fun w =>
    let w' := mkWorld (trace w ++ [ERead pdf_path]) (results_var w) in
    match acquire_text (reads (trace w)) pdf_path with
    | inr text => (inr text, w')
    | inl msg => (inl (LibError msg), w')
    end.

(** A record of [extract_sds_data] as a dictionary of values. *)
Definition as_value (d : Dict.t string) : value :=
  VDict (map (fun kv => (fst kv, VStr (snd kv))) d).

(** [extract_from_pdf_with_ai(pdf_path, light_mode=True)] *)
Definition extract_from_pdf_light (pdf_path : string) : M value :=
  catch
    (text <- read_document pdf_path ;;
     let filename := basename pdf_path in
     let basic_data := as_value (extract_sds_data set_iter text "Pattern-based") in
     lift (py_setitem basic_data "Source File" (VStr filename)))
    (fun e => ret (error_result ("PDF extraction failed: " ++ exn_str e))).

(** The test of line 273 *)
Definition rate_limited (extracted_data : value) : exn + bool :=
  match py_contains "error" extracted_data with
  | inr true =>
      match py_getitem extracted_data "error" with
      | inr err =>
          match py_lower_of err with
          | inr low =>
              if contains "rate limit" low then inr true
              else
                match py_contains "429" err with
                | inr b => inr b
                | inl e => inl e
                end
          | inl e => inl e
          end
      | inl e => inl e
      end
  | inr false => inr false
  | inl e => inl e
  end.

(** [extract_from_pdf_with_ai] *)
Definition extract_from_pdf_with_ai (pdf_path : string) (light_mode : bool) : M value :=
  if light_mode then extract_from_pdf_light pdf_path
  else
    catch
      (text <- read_document pdf_path ;;
       let filename := basename pdf_path in
       extracted_data <- extract_with_ai text (Some filename) false ;;
       limited <- lift (rate_limited extracted_data) ;;
       if limited then extract_from_pdf_light pdf_path
       else ret extracted_data)
      (fun _ => extract_from_pdf_light pdf_path).

End World.

(* ================================================================== *)
(** * [ml_extractor.py] *)

(** The keywords of lines 641, 654, 666 and 677. *)
Definition health_terms : list string :=
  [ "toxic"; "health"; "irritat"; "corrosive"; "sensitiz"; "mutagen";
    "carcino"; "reproduct"; "damage" ].
Definition health_category_terms : list string :=
  [ "toxic"; "health"; "irritat"; "corrosive"; "sensitiz" ].
Definition physical_terms : list string :=
  [ "flammable"; "explosive"; "oxidiz"; "gas"; "pressure"; "react";
    "peroxide"; "corrosive" ].
Definition physical_category_terms : list string :=
  [ "flammable"; "explosive"; "oxidiz"; "gas"; "pressure" ].

(** [data and "error" not in data] *)
Definition usable (data : value) : exn + bool :=
  if truthy data then
    match py_contains "error" data with
    | inr b => inr (negb b)
    | inl e => inl e
    end
  else inr false.

(** [key not in d or not d[key]] *)
Definition missing_or_empty (key : string) (d : value) : exn + bool :=
  match py_contains key d with
  | inr true =>
      match py_getitem d key with
      | inr x => inr (negb (truthy x))
      | inl e => inl e
      end
  | inr false => inr true
  | inl e => inl e
  end.

(** One turn of the fill loops (lines 419 to 421, 615 to 617 and 690 to
    692): the value is stored only where the key is missing or empty. *)
Definition fill_one (dst : value) (kv : string * value) : exn + value :=
  match missing_or_empty (fst kv) dst with
  | inr true => py_setitem dst (fst kv) (snd kv)
  | inr false => inr dst
  | inl e => inl e
  end.

Fixpoint fill_missing (dst : value) (items : list (string * value)) : exn + value :=
  match items with
  | [] => inr dst
  | kv :: rest =>
      match fill_one dst kv with
      | inr dst' => fill_missing dst' rest
      | inl e => inl e
      end
  end.

(** The classifications that mention one of [terms], in order; an item
    that is not a [str] makes [classification.lower()] raise. *)
Fixpoint select_classifications (terms : list string) (l : list value)
  : exn + list string :=
  match l with
  | [] => inr []
  | VStr classification :: rest =>
      match select_classifications terms rest with
      | inr picked =>
          inr (if existsb (fun term => contains term (py_lower classification)) terms
               then classification :: picked
               else picked)
      | inl e => inl e
      end
  | other :: _ => inl (InterpError (NoAttribute (type_of other) "lower"))
  end.

(** The digits after "category" in the first classification that names a
    category and one of [terms] and has such digits. *)
Fixpoint first_category (terms : list string) (l : list value)
  : exn + option string :=
  match l with
  | [] => inr None
  | VStr classification :: rest =>
      let low := py_lower classification in
      if contains "category" low && existsb (fun term => contains term low) terms
      then
        match search F0 "category\s*(\d+)" low with
        | Some category_match => inr (Some (group_str category_match 1))
        | None => first_category terms rest
        end
      else first_category terms rest
  | other :: _ => inl (InterpError (NoAttribute (type_of other) "lower"))
  end.

Section Consolidation.

Variable ai_service : option service.
Variable provider : nat -> request -> string + string.
Variable json_loads : string -> string + value.
Variable repr_of : value -> string.
Variable interp_str : interp_error -> string.

Local Open Scope py_scope.

Local Abbreviation exn_str := (exn_str interp_str).
Local Abbreviation py_str := (py_str repr_of).
Local Abbreviation loads := (loads json_loads).
Local Abbreviation call_provider := (call_provider provider).
Local Abbreviation extract_with_ai :=
  (extract_with_ai ai_service provider json_loads repr_of interp_str).

(** ["; ".join([f"{k}: {v}" for k, v in d.items() if v])] *)
Definition dict_summary (d : list (string * value)) : string :=
  join "; "
    (map (fun kv => fst kv ++ ": " ++ py_str (snd kv))
         (filter (fun kv => truthy (snd kv)) d)).

(** The decoding of a reply in the specialized extractors: a block that
    does not decode raises, a reply or a brace span that does not decode
    leaves the empty dictionary. *)
Definition lenient_json (response_text : string) : exn + value :=
  match search FS fence_pattern response_text with
  | Some json_match => loads (group_str json_match 1)
  | None =>
      match json_loads response_text with
      | inr data => inr data
      | inl _ =>
          match search FS brace_pattern response_text with
          | Some potential_json =>
              match json_loads (group_str potential_json 1) with
              | inr data => inr data
              | inl _ => inr (VDict [])
              end
          | None => inr (VDict [])
          end
      end
  end.

(** The common body of the five specialized extractors. *)
Definition specialized (p : prompt) (payload : string) : M value :=
  match ai_service with
  | None => ret (error_result "No AI service available")
  | Some s =>
      catch
        (response_text <- call_provider s p payload ;;
         match s with
         | OpenAI => lift (loads response_text)
         | Anthropic => lift (lenient_json response_text)
         end)
        (fun e => ret (VDict [("error", VStr (exn_str e))]))
  end.

Definition specialized_hazard_extraction (text : string) : M value :=
  specialized PromptHazard text.

Definition specialized_first_aid_extraction (text : string) : M value :=
  specialized PromptFirstAid text.

Definition specialized_firefighting_extraction (text : string) : M value :=
  specialized PromptFirefighting text.

Definition extract_identification_info (text : string) : M value :=
  specialized PromptIdentification (take 3000 text).

Definition extract_physical_chemical_properties (text : string) : M value :=
  specialized PromptPhysical text.

(** The value a specialized record gives for its field: the summary of a
    dictionary, the [str] of anything else. *)
Definition as_field (data : value) : value :=
  match data with
  | VDict d => VStr (dict_summary d)
  | _ => VStr (py_str data)
  end.

(** The unconditional stores of lines 398 to 414, 620 to 632 and 753 to
    766. *)
Definition store_specialized (key : string) (data results : value) : exn + value :=
  match usable data with
  | inr true => py_setitem results key (as_field data)
  | inr false => inr results
  | inl e => inl e
  end.

(** [results[key] = v] on the dictionary of [hierarchical_extraction]. *)
Definition assign (key : string) (v : value) : M unit :=
  results <- get_results ;;
  results' <- lift (py_setitem results key v) ;;
  set_results results'.

Definition update_results (f : value -> exn + value) : M unit :=
  results <- get_results ;;
  results' <- lift (f results) ;;
  set_results results'.

(** Lines 385 to 394: a list is joined, anything else stored as it is. *)
Definition assign_joined (key : string) (hazard_data : value) : M unit :=
  present <- lift (py_contains key hazard_data) ;;
  if present then
    x <- lift (py_getitem hazard_data key) ;;
    match x with
    | VList l => s <- lift (py_join "; " l) ;; assign key (VStr s)
    | _ => assign key x
    end
  else ret tt.

(** Lines 343 to 375: the section positions asked of the model; the
    answer is decoded and never used. *)
Definition identify_sections (s : service) (text : string) : M unit :=
  response_text <- call_provider s PromptSections (take 5000 text) ;;
  match s with
  | OpenAI => _ <- lift (loads response_text) ;; ret tt
  | Anthropic =>
      match search FS fence_pattern response_text with
      | Some json_match => _ <- lift (loads (group_str json_match 1)) ;; ret tt
      | None => ret tt
      end
  end.

Fixpoint for_each {A} (l : list A) (body : A -> M unit) : M unit :=
  match l with
  | [] => ret tt
  | x :: rest => body x ;;; for_each rest body
  end.

(** [hierarchical_extraction] *)
Definition hierarchical_extraction (text : string) : M value :=
  match ai_service with
  | None => ret (error_result "No AI service available")
  | Some s =>
      set_results (VDict []) ;;;
      catch
        (identify_sections s text ;;;
         identification <- extract_identification_info text ;;
         set_results identification ;;;
         hazard_data <- specialized_hazard_extraction text ;;
         ok <- lift (usable hazard_data) ;;
         (if ok then
            present <- lift (py_contains "GHS Classification" hazard_data) ;;
            (if present then
               ghs <- lift (py_get hazard_data "GHS Classification" (VStr "")) ;;
               assign "Health Hazards" ghs
             else ret tt) ;;;
            assign_joined "Hazard Statements" hazard_data ;;;
            assign_joined "Pictograms" hazard_data
          else ret tt) ;;;
         first_aid_data <- specialized_first_aid_extraction text ;;
         update_results (store_specialized "First Aid Measures" first_aid_data) ;;;
         firefighting_data <- specialized_firefighting_extraction text ;;
         update_results (store_specialized "Firefighting Measures" firefighting_data) ;;;
         phys_chem_data <- extract_physical_chemical_properties text ;;
         ok <- lift (usable phys_chem_data) ;;
         if ok then
           items <- lift (py_items phys_chem_data) ;;
           for_each items (fun kv => update_results (fun r => fill_one r kv))
         else ret tt)
        (fun e =>
           assign "error" (VStr ("Hierarchical extraction failed: " ++ exn_str e))) ;;;
      get_results
  end.

(** [hazard_data.get("GHS Classification", "")] when it is a list. *)
Definition ghs_list (hazard_data : value) : exn + option (list value) :=
  match py_get hazard_data "GHS Classification" (VStr "") with
  | inr (VList l) => inr (Some l)
  | inr _ => inr None
  | inl e => inl e
  end.

(** Lines 636 to 647 *)
Definition merge_health_hazards (hazard_data combined : value) : exn + value :=
  match missing_or_empty "Health Hazards" combined with
  | inr true =>
      match ghs_list hazard_data with
      | inr l =>
          match select_classifications health_terms
                  (match l with Some l => l | None => [] end) with
          | inr [] =>
              match py_get hazard_data "GHS Classification" (VStr "") with
              | inr ghs => py_setitem combined "Health Hazards" ghs
              | inl e => inl e
              end
          | inr health_hazards =>
              py_setitem combined "Health Hazards" (VStr (join "; " health_hazards))
          | inl e => inl e
          end
      | inl e => inl e
      end
  | inr false => inr combined
  | inl e => inl e
  end.

(** Lines 650 to 658 and 673 to 681 *)
Definition merge_category (key : string) (terms : list string)
    (hazard_data combined : value) : exn + value :=
  match missing_or_empty key combined with
  | inr true =>
      match ghs_list hazard_data with
      | inr (Some l) =>
          match first_category terms l with
          | inr (Some digits) => py_setitem combined key (VStr digits)
          | inr None => inr combined
          | inl e => inl e
          end
      | inr None => inr combined
      | inl e => inl e
      end
  | inr false => inr combined
  | inl e => inl e
  end.

(** Lines 661 to 670 *)
Definition merge_physical_hazards (hazard_data combined : value) : exn + value :=
  match missing_or_empty "Physical Hazards" combined with
  | inr true =>
      match ghs_list hazard_data with
      | inr (Some l) =>
          match select_classifications physical_terms l with
          | inr [] => inr combined
          | inr physical_hazards =>
              py_setitem combined "Physical Hazards" (VStr (join "; " physical_hazards))
          | inl e => inl e
          end
      | inr None => inr combined
      | inl e => inl e
      end
  | inr false => inr combined
  | inl e => inl e
  end.

(** Lines 683 to 687 *)
Definition merge_hazard_statements (hazard_data combined : value) : exn + value :=
  match missing_or_empty "Hazard Statements" combined with
  | inr true =>
      match py_get hazard_data "Hazard Statements" (VStr "") with
      | inr (VList l) =>
          match py_join "; " l with
          | inr s => py_setitem combined "Hazard Statements" (VStr s)
          | inl e => inl e
          end
      | inr x => py_setitem combined "Hazard Statements" x
      | inl e => inl e
      end
  | inr false => inr combined
  | inl e => inl e
  end.

Definition and_then {A B} (r : exn + A) (f : A -> exn + B) : exn + B :=
  match r with
  | inr a => f a
  | inl e => inl e
  end.

(** Lines 634 to 687 *)
Definition merge_hazards (hazard_data combined : value) : exn + value :=
  match usable hazard_data with
  | inr true =>
      and_then (merge_health_hazards hazard_data combined) (fun c =>
      and_then (merge_category "Health Category" health_category_terms hazard_data c) (fun c =>
      and_then (merge_physical_hazards hazard_data c) (fun c =>
      and_then (merge_category "Physical Category" physical_category_terms hazard_data c) (fun c =>
      merge_hazard_statements hazard_data c))))
  | inr false => inr combined
  | inl e => inl e
  end.

(** Lines 689 to 692 *)
Definition merge_physical (physical_data combined : value) : exn + value :=
  match usable physical_data with
  | inr true => and_then (py_items physical_data) (fill_missing combined)
  | inr false => inr combined
  | inl e => inl e
  end.

(** Lines 611 to 694: the combination of the six candidate records. *)
Definition combine (basic_results hierarchical_results first_aid_data
    firefighting_data hazard_data physical_data : value) : exn + value :=
  and_then (py_items hierarchical_results) (fun items =>
  and_then (fill_missing basic_results items) (fun c =>
  and_then (store_specialized "First Aid Measures" first_aid_data c) (fun c =>
  and_then (store_specialized "Firefighting Measures" firefighting_data c) (fun c =>
  and_then (merge_hazards hazard_data c) (fun c =>
  merge_physical physical_data c))))).

(** [multi_pass_extraction] *)
Definition multi_pass_extraction (text : string) : M value :=
  basic_results <- extract_with_ai text None false ;;
  hierarchical_results <- hierarchical_extraction text ;;
  first_aid_data <- specialized_first_aid_extraction text ;;
  firefighting_data <- specialized_firefighting_extraction text ;;
  hazard_data <- specialized_hazard_extraction text ;;
  physical_data <- extract_physical_chemical_properties text ;;
  lift (combine basic_results hierarchical_results first_aid_data
          firefighting_data hazard_data physical_data).

(** Lines 799 to 805 *)
Definition flatten_values (results : value) : exn + value :=
  and_then (py_items results) (fun items =>
    inr (VDict (map (fun kv =>
                       match snd kv with
                       | VList l => (fst kv, VStr (join "; " (map py_str l)))
                       | VDict d => (fst kv, VStr (dict_summary d))
                       | _ => kv
                       end) items))).

(** The strategy chosen when light mode is off, lines 737 to 775. *)
Definition run_strategy (text strategy : string) : M value :=
  if String.eqb strategy "direct_extraction" then extract_with_ai text None false
  else if String.eqb strategy "hierarchical_extraction" then hierarchical_extraction text
  else if String.eqb strategy "specialized_extraction" then
    results <- extract_with_ai text None false ;;
    first_aid_data <- specialized_first_aid_extraction text ;;
    results <- lift (store_specialized "First Aid Measures" first_aid_data results) ;;
    firefighting_data <- specialized_firefighting_extraction text ;;
    lift (store_specialized "Firefighting Measures" firefighting_data results)
  else if String.eqb strategy "multi_pass_extraction" then multi_pass_extraction text
  else extract_with_ai text None false.

(** [extract_sds_with_ml] *)
Definition extract_sds_with_ml (text strategy : string) (light_mode : bool) : M value :=
  if negb (nonempty text) then ret (error_result "No text provided")
  else
    match ai_service with
    | None => ret (error_result "No AI API keys available")
    | Some _ =>
        results <-
          catch
            (if light_mode then extract_with_ai text None true
             else run_strategy text strategy)
            (fun _ => extract_with_ai text None true) ;;
        results <- lift (add_missing_fields results expected_fields) ;;
        lift (flatten_values results)
    end.

End Consolidation.

(* ================================================================== *)
(** * Instances of the collaborators, for running the model *)

(** The double quote, and a way to write JSON text in this file: every
    apostrophe of the literal stands for a double quote. *)
Definition dquote : ascii := ascii_of_N 34.

Fixpoint js (s : string) : string :=
  match s with
  | "" => ""
  | String c rest => String (if Ascii.eqb c "'" then dquote else c) (js rest)
  end.

(** A decoder for the JSON texts of the examples: objects, arrays, strings
    with the usual escapes, integers, [true], [false] and [null], over
    U+0000..U+00FF.  A key given twice keeps its first place and its last
    value, as in a [dict].  Fractions, exponents and [\u] escapes above
    U+00FF are not in this fragment, and the message of a failure is not
    the library's. *)
Module Json.

Definition is_ws (c : ascii) : bool :=
  let n := code c in ((n =? 32) || (n =? 9) || (n =? 10) || (n =? 13))%N.

Fixpoint skip_ws (s : string) : string :=
  match s with
  | String c rest => if is_ws c then skip_ws rest else s
  | "" => ""
  end.

Definition hex_val (c : ascii) : option N :=
  let n := code c in
  if is_digit c then Some (n - 48)%N
  else if in_range "a" "f" c then Some (n - 87)%N
  else if in_range "A" "F" c then Some (n - 55)%N
  else None.

Definition hex4 (a b c d : ascii) : option N :=
  match hex_val a, hex_val b, hex_val c, hex_val d with
  | Some x, Some y, Some z, Some w => Some (((x * 16 + y) * 16 + z) * 16 + w)%N
  | _, _, _, _ => None
  end.

Definition simple_escape (c : ascii) : option ascii :=
  if Ascii.eqb c dquote then Some dquote
  else if Ascii.eqb c "\" then Some "\"%char
  else if Ascii.eqb c "/" then Some "/"%char
  else if Ascii.eqb c "b" then Some (ascii_of_N 8)
  else if Ascii.eqb c "f" then Some (ascii_of_N 12)
  else if Ascii.eqb c "n" then Some (ascii_of_N 10)
  else if Ascii.eqb c "r" then Some (ascii_of_N 13)
  else if Ascii.eqb c "t" then Some (ascii_of_N 9)
  else None.

(** The characters of a string up to its closing quote. *)
Fixpoint string_body (fuel : nat) (s : string) : option (string * string) :=
  match fuel with
  | O => None
  | S fuel' =>
      match s with
      | "" => None
      | String c rest =>
          if Ascii.eqb c dquote then Some ("", rest)
          else if Ascii.eqb c "\" then
            match rest with
            | String "u" (String h1 (String h2 (String h3 (String h4 rest')))) =>
                match hex4 h1 h2 h3 h4 with
                | Some n =>
                    if (n <? 256)%N then
                      match string_body fuel' rest' with
                      | Some (t, r) => Some (String (ascii_of_N n) t, r)
                      | None => None
                      end
                    else None
                | None => None
                end
            | String e rest' =>
                match simple_escape e with
                | Some x =>
                    match string_body fuel' rest' with
                    | Some (t, r) => Some (String x t, r)
                    | None => None
                    end
                | None => None
                end
            | "" => None
            end
          else if (code c <? 32)%N then None
          else
            match string_body fuel' rest with
            | Some (t, r) => Some (String c t, r)
            | None => None
            end
      end
  end.

Fixpoint digits (acc : Z) (s : string) : Z * string :=
  match s with
  | String c rest =>
      if is_digit c then digits (10 * acc + Z.of_N (code c - 48)) rest else (acc, s)
  | "" => (acc, s)
  end.

Definition after_number (s : string) : bool :=
  match s with
  | String c _ => negb (Ascii.eqb c "." || Ascii.eqb c "e" || Ascii.eqb c "E")
  | "" => true
  end.

(** An integer without a leading zero. *)
Definition number (s : string) : option (Z * string) :=
  match s with
  | String "0" rest => if starts_digit rest then None else Some (0%Z, rest)
  | String c _ =>
      if is_digit c then Some (digits 0 s) else None
  | "" => None
  end.

Fixpoint parse_value (fuel : nat) (s : string) : option (value * string) :=
  match fuel with
  | O => None
  | S fuel' =>
      match skip_ws s with
      | "" => None
      | String c rest =>
          if Ascii.eqb c dquote then
            match string_body (String.length rest) rest with
            | Some (t, r) => Some (VStr t, r)
            | None => None
            end
          else if Ascii.eqb c "{" then
            match skip_ws rest with
            | String "}" r => Some (VDict [], r)
            | _ => parse_members fuel' rest []
            end
          else if Ascii.eqb c "[" then
            match skip_ws rest with
            | String "]" r => Some (VList [], r)
            | _ => parse_elements fuel' rest []
            end
          else if starts_with "true" (String c rest) then Some (VBool true, drop 4 (String c rest))
          else if starts_with "false" (String c rest) then Some (VBool false, drop 5 (String c rest))
          else if starts_with "null" (String c rest) then Some (VNone, drop 4 (String c rest))
          else if Ascii.eqb c "-" then
            match number rest with
            | Some (z, r) => if after_number r then Some (VInt (- z), r) else None
            | None => None
            end
          else
            match number (String c rest) with
            | Some (z, r) => if after_number r then Some (VInt z, r) else None
            | None => None
            end
      end
  end
with parse_members (fuel : nat) (s : string) (acc : list (string * value))
  : option (value * string) :=
  match fuel with
  | O => None
  | S fuel' =>
      match skip_ws s with
      | String c rest =>
          if Ascii.eqb c dquote then
            match string_body (String.length rest) rest with
            | Some (key, r) =>
                match skip_ws r with
                | String ":" r1 =>
                    match parse_value fuel' r1 with
                    | Some (v, r2) =>
                        match skip_ws r2 with
                        | String "," r3 => parse_members fuel' r3 (Dict.set key v acc)
                        | String "}" r3 => Some (VDict (Dict.set key v acc), r3)
                        | _ => None
                        end
                    | None => None
                    end
                | _ => None
                end
            | None => None
            end
          else None
      | "" => None
      end
  end
with parse_elements (fuel : nat) (s : string) (acc : list value)
  : option (value * string) :=
  match fuel with
  | O => None
  | S fuel' =>
      match parse_value fuel' s with
      | Some (v, r) =>
          match skip_ws r with
          | String "," r1 => parse_elements fuel' r1 (acc ++ [v])%list
          | String "]" r1 => Some (VList (acc ++ [v])%list, r1)
          | _ => None
          end
      | None => None
      end
  end.

Definition loads (s : string) : string + value :=
  match parse_value (2 * String.length s + 2) s with
  | Some (v, rest) =>
      match skip_ws rest with
      | "" => inr v
      | _ => inl "Extra data"
      end
  | None => inl "Expecting value"
  end.

End Json.

(** The wording of CPython 3.11 for the interpreter's errors, and [repr]
    for values whose strings hold no quote, backslash or control
    character. *)
Module CPython.

Definition type_name (t : pytype) : string :=
  match t with
  | TNone => "NoneType"
  | TBool => "bool"
  | TInt => "int"
  | TFloat => "float"
  | TStr => "str"
  | TList => "list"
  | TDict => "dict"
  end.

Definition interp_str (e : interp_error) : string :=
  match e with
  | NotIterable t => "argument of type '" ++ type_name t ++ "' is not iterable"
  | NoItemAssignment t => "'" ++ type_name t ++ "' object does not support item assignment"
  | BadSubscript TList => "list indices must be integers or slices, not str"
  | BadSubscript TStr => "string indices must be integers, not 'str'"
  | BadSubscript t => "'" ++ type_name t ++ "' object is not subscriptable"
  | NoAttribute t attr =>
      "'" ++ type_name t ++ "' object has no attribute '" ++ attr ++ "'"
  | JoinItem i t =>
      "sequence item " ++ str_of_nat i ++ ": expected str instance, "
        ++ type_name t ++ " found"
  | KeyError key => "'" ++ key ++ "'"
  | UnboundLocal var =>
      "cannot access local variable '" ++ var
        ++ "' where it is not associated with a value"
  end.

(** The wording of CPython up to 3.10 differs for this one error. *)
Definition interp_str_310 (e : interp_error) : string :=
  match e with
  | UnboundLocal var => "local variable '" ++ var ++ "' referenced before assignment"
  | BadSubscript TStr => "string indices must be integers"
  | _ => interp_str e
  end.

Fixpoint repr (v : value) : string :=
  match v with
  | VNone => "None"
  | VBool true => "True"
  | VBool false => "False"
  | VInt z => str_of_Z z
  | VFloat r _ => r
  | VStr s => "'" ++ s ++ "'"
  | VList l => "[" ++ join ", " (map repr l) ++ "]"
  | VDict d =>
      "{" ++ join ", " (map (fun kv => "'" ++ fst kv ++ "': " ++ repr (snd kv)) d) ++ "}"
  end.

End CPython.

(* ================================================================== *)
(** * Definitions used to state the properties *)

Definition adv (a : ascii) (rest : string) (pos : nat) (caps : list (nat * string)) : mstate :=
  mkSt (Some a) rest (S pos) caps.

(** What a greedy loop over a one-character test does, by recursion on the
    subject instead of fuel. *)
Fixpoint greedy_try (p : ascii -> bool) (lo : nat) (hi : option nat) (n : nat)
    (prev : option ascii) (rest : string) (pos : nat) (caps : list (nat * string))
    (k : kont) : option mstate :=
  let stop := if (lo <=? n)%nat then k (mkSt prev rest pos caps) else None in
  match rest with
  | String a rest' =>
      if under hi n && p a then
        match greedy_try p lo hi (S n) (Some a) rest' (S pos) caps k with
        | Some r => Some r
        | None => stop
        end
      else stop
  | "" => stop
  end.


Fixpoint span (p : ascii -> bool) (s : string) : nat :=
  match s with
  | String a rest => if p a then S (span p rest) else 0
  | "" => 0
  end.

Definition ws_re : regex := RRep true 1 None (RSet false [CSpace]).

(** The collapse as the specification words it: every maximal run of
    whitespace becomes one space. *)
Fixpoint collapse_from (in_run : bool) (s : string) : string :=
  match s with
  | "" => ""
  | String c rest =>
      if is_space c
      then if in_run then collapse_from true rest
           else String " " (collapse_from true rest)
      else String c (collapse_from false rest)
  end.

Definition collapse_ws (s : string) : string := collapse_from false s.

Definition starts_space (s : string) : bool :=
  match s with String c _ => is_space c | "" => false end.

Fixpoint single_spaced_from (after_space : bool) (s : string) : bool :=
  match s with
  | "" => true
  | String c rest =>
      if is_space c
      then Ascii.eqb c " " && negb after_space && single_spaced_from true rest
      else single_spaced_from false rest
  end.

(** Every whitespace character is a space, and no two are adjacent. *)
Definition single_spaced (s : string) : bool := single_spaced_from false s.

(** The choice Automatic mode makes for one field. *)
Definition automatic_choice (pattern_value section_value : string) : string :=
  if (3 <? String.length (strip pattern_value))%nat then pattern_value
  else if (3 <? String.length (strip section_value))%nat then section_value
  else "".

(** The events of [remaining] failed attempts that are all classified as
    rate-limited, after [retry_count] earlier ones. *)
Fixpoint rate_limited_attempts (text : string) (remaining retry_count : nat) : list event :=
  match remaining with
  | O => []
  | S remaining' =>
      ECall (mkRequest Anthropic PromptExtract text)
        :: ESleep (backoff_time * S retry_count)
        :: rate_limited_attempts text remaining' (S retry_count)
  end.

(** A provider under which every call fails with a rate-limit signal. *)
Definition always_rate_limited (provider : nat -> request -> string + string) : Prop :=
  forall n rq, exists msg, provider n rq = inl msg /\ is_rate_limit msg = true.

Definition provider_429 (n : nat) (rq : request) : string + string :=
  inl "Error code: 429 - rate_limit_error".





(** [m] only ever adds events, and at least [n] calls among them. *)
Definition adds_calls {A} (n : nat) (m : M A) : Prop :=
  forall w, calls (trace w) + n <= calls (trace (snd (m w))).

(** * The first registry-number and flash-point patterns *)




Definition flash_line : string := Eval vm_compute in latin1 "Flash point: 91°C".






(** * Sample documents, replies and collaborators *)

Definition sample_sds : string :=
  "Product Name: 1-Methyl-2-pyrrolidone" ++ nl ++
  "CAS No: 872-50-4" ++ nl ++
  "Appearance: clear   colourless  liquid" ++ nl ++
  flash_line ++ nl.

(** A label with the registry number and one hazard statement. *)
Definition nmp_label : string :=
  "CAS No: 872-50-4" ++ nl ++ "H315 Causes skin irritation".


(** A model that answers every request with one field. *)
Definition provider_json (n : nat) (rq : request) : string + string :=
  inr (js "{'Product Name': 'NMP solvent'}").


(** Every path holds the sample document. *)
Definition acquire_sample (n : nat) (path : string) : string + string :=
  inr sample_sds.




(** The world after the document was read and the one call was refused. *)
Definition world_refused : world :=
  mkWorld [ERead "docs/a.pdf"; ECall (mkRequest OpenAI PromptExtract sample_sds)]
          (VDict []).

Definition refusal : value :=
  error_result "AI extraction failed: Error code: 429 - rate_limit_error".





(* ================================================================== *)
(** * Properties *)

(** ** Dictionaries *)

Section DictFacts.
Context {V : Type}.
Implicit Types (d : Dict.t V) (k : string) (v : V).

Lemma get_set_same k v d : Dict.get k (Dict.set k v d) = Some v.
Proof.
  induction d as [|[k' v'] d IH]; simpl.
  - now rewrite String.eqb_refl.
  - destruct (String.eqb k k') eqn:E; simpl.
    + now rewrite String.eqb_refl.
    + now rewrite E.
Qed.

Lemma get_set_other k k' v d :
  k <> k' -> Dict.get k (Dict.set k' v d) = Dict.get k d.
Proof.
  intros Hne. induction d as [|[k0 v0] d IH]; simpl.
  - destruct (String.eqb k k') eqn:E; [apply String.eqb_eq in E; contradiction|reflexivity].
  - destruct (String.eqb k' k0) eqn:E; simpl.
    + apply String.eqb_eq in E. subst k0.
      destruct (String.eqb k k') eqn:E'; [apply String.eqb_eq in E'; contradiction|reflexivity].
    + now rewrite IH.
Qed.

Lemma get_set k k' v d :
  Dict.get k (Dict.set k' v d) = if String.eqb k k' then Some v else Dict.get k d.
Proof.
  destruct (String.eqb k k') eqn:E.
  - apply String.eqb_eq in E. subst. apply get_set_same.
  - apply get_set_other. intros ->. now rewrite String.eqb_refl in E.
Qed.

Lemma keys_set_present k v d :
  In k (Dict.keys d) -> Dict.keys (Dict.set k v d) = Dict.keys d.
Proof.
  induction d as [|[k' v'] d IH]; simpl; [easy|].
  intros H. destruct (String.eqb k k') eqn:E; simpl.
  - apply String.eqb_eq in E. now subst.
  - f_equal. apply IH. destruct H as [H|H]; [|exact H].
    subst. now rewrite String.eqb_refl in E.
Qed.

Lemma keys_set_absent k v d :
  ~ In k (Dict.keys d) -> Dict.keys (Dict.set k v d) = (Dict.keys d ++ [k])%list.
Proof.
  induction d as [|[k' v'] d IH]; simpl; [easy|].
  intros H. destruct (String.eqb k k') eqn:E; simpl.
  - apply String.eqb_eq in E. subst. tauto.
  - f_equal. apply IH. tauto.
Qed.


Lemma in_keys_get k d : In k (Dict.keys d) -> exists v, Dict.get k d = Some v.
Proof.
  induction d as [|[k' v'] d IH]; simpl; [easy|].
  intros H. destruct (String.eqb k k') eqn:E; [now eexists|].
  destruct H as [H|H]; [subst; now rewrite String.eqb_refl in E|now apply IH].
Qed.

End DictFacts.

Lemma get_map_values {A B} (f : A -> B) (k : string) (d : Dict.t A) :
  Dict.get k (map (fun kv => (fst kv, f (snd kv))) d) = option_map f (Dict.get k d).
Proof.
  induction d as [|[k' v'] d IH]; simpl; [reflexivity|].
  now destruct (String.eqb k k').
Qed.

Lemma keys_map_values {A B} (f : A -> B) (d : Dict.t A) :
  Dict.keys (map (fun kv => (fst kv, f (snd kv))) d) = Dict.keys d.
Proof.
  unfold Dict.keys. rewrite map_map. reflexivity.
Qed.

(** ** The orchestrator, [extract_sds_data] *)

Section Orchestrator.
Variable set_iter : list string -> list string.

Lemma keys_merge_field pd sd data f :
  In f (Dict.keys data) -> Dict.keys (merge_field pd sd data f) = Dict.keys data.
Proof.
  intros H. unfold merge_field.
  destruct (_ <? _)%nat; [now apply keys_set_present|].
  destruct (_ <? _)%nat; [now apply keys_set_present|reflexivity].
Qed.

Lemma keys_copy_field src data f :
  In f (Dict.keys data) -> Dict.keys (copy_field src data f) = Dict.keys data.
Proof.
  intros H. unfold copy_field.
  destruct (Dict.get f src); [now apply keys_set_present|reflexivity].
Qed.

Lemma keys_fold_fields (step : Dict.t string -> string -> Dict.t string) :
  (forall data f, In f (Dict.keys data) -> Dict.keys (step data f) = Dict.keys data) ->
  forall fields data,
    incl fields (Dict.keys data) ->
    Dict.keys (fold_left step fields data) = Dict.keys data.
Proof.
  intros Hstep. induction fields as [|f fields IH]; intros data Hincl; simpl; [reflexivity|].
  rewrite IH.
  - apply Hstep. apply Hincl. now left.
  - rewrite Hstep by (apply Hincl; now left).
    intros x Hx. apply Hincl. now right.
Qed.

Lemma keys_initial :
  Dict.keys (map (fun field : string => (field, "")) required_fields) = required_fields.
Proof. reflexivity. Qed.

Lemma keys_select_data text method :
  Dict.keys (select_data set_iter text method) = required_fields.
Proof.
  unfold select_data.
  destruct (String.eqb method "Automatic");
    [|destruct (String.eqb method "Section-based")];
    (rewrite keys_fold_fields;
     [apply keys_initial
     |intros; first [now apply keys_merge_field | now apply keys_copy_field]
     |rewrite keys_initial; apply incl_refl]).
Qed.

End Orchestrator.

(** ** The matcher on single-character loops *)

Lemma rep_loop_S body g lo hi fuel n st k :
  rep_loop body g lo hi (S fuel) n st k =
  if g
  then match (if under hi n
              then body st (fun st' =>
                     if (st_pos st' =? st_pos st)%nat then None
                     else rep_loop body g lo hi fuel (S n) st' k)
              else None) with
       | Some r => Some r
       | None => if (lo <=? n)%nat then k st else None
       end
  else match (if (lo <=? n)%nat then k st else None) with
       | Some r => Some r
       | None =>
           if under hi n
           then body st (fun st' =>
                  if (st_pos st' =? st_pos st)%nat then None
                  else rep_loop body g lo hi fuel (S n) st' k)
           else None
       end.
Proof. reflexivity. Qed.

Lemma succ_eqb_false n : (S n =? n)%nat = false.
Proof. apply Nat.eqb_neq. lia. Qed.

Lemma rep_loop_greedy p lo hi k : forall fuel n prev rest pos caps,
  String.length rest < fuel ->
  rep_loop (step p) true lo hi fuel n (mkSt prev rest pos caps) k
  = greedy_try p lo hi n prev rest pos caps k.
Proof.
  induction fuel as [|fuel IH]; intros n prev rest pos caps Hf; [lia|].
  rewrite rep_loop_S. unfold step. cbn [st_rest st_pos st_prev st_caps].
  destruct rest as [|a rest']; cbn [greedy_try].
  - destruct (under hi n); reflexivity.
  - destruct (under hi n); cbn [andb]; [|reflexivity].
    destruct (p a); [|reflexivity].
    rewrite succ_eqb_false.
    rewrite IH by (cbn in Hf; lia). reflexivity.
Qed.


Lemma last_char_cons prev a s : last_char prev (String a s) = last_char (Some a) s.
Proof. reflexivity. Qed.

Lemma span_le p s : span p s <= String.length s.
Proof. induction s as [|a s IH]; simpl; [lia|]. destruct (p a); simpl; lia. Qed.

(** A greedy loop that nothing follows takes the longest run. *)
Lemma greedy_try_all p lo : forall rest n prev pos caps,
  greedy_try p lo None n prev rest pos caps (fun st => Some st) =
  if (lo <=? n + span p rest)%nat
  then Some (mkSt (last_char prev (take (span p rest) rest))
                  (drop (span p rest) rest) (pos + span p rest) caps)
  else None.
Proof.
  induction rest as [|a rest IH]; intros n prev pos caps; cbn [greedy_try span].
  - rewrite !Nat.add_0_r. reflexivity.
  - cbn [under andb]. destruct (p a) eqn:Hp.
    + rewrite IH. replace (n + S (span p rest)) with (S n + span p rest) by lia.
      destruct (lo <=? S n + span p rest)%nat eqn:E.
      * cbn [take drop]. rewrite last_char_cons.
        replace (pos + S (span p rest)) with (S pos + span p rest) by lia. reflexivity.
      * apply Nat.leb_gt in E.
        replace (lo <=? n)%nat with false by (symmetry; apply Nat.leb_gt; lia).
        reflexivity.
    + rewrite !Nat.add_0_r. reflexivity.
Qed.

(** ** [re.sub(r'\s+', ' ', s)] collapses whitespace *)

Lemma parse_ws : parse "\s+" = Some (ws_re, 0).
Proof. reflexivity. Qed.

Lemma set_match_space a : set_match false false [CSpace] a = is_space a.
Proof. unfold set_match. cbn. now rewrite orb_false_r. Qed.

Lemma span_ext p q s : (forall a, p a = q a) -> span p s = span q s.
Proof. intros H. induction s as [|a s IH]; simpl; [reflexivity|]. now rewrite H, IH. Qed.

Lemma match_here_ws prev rest pos :
  match_here F0 ws_re prev rest pos =
  match span is_space rest with
  | 0 => None
  | S j => Some (mkMatch pos (pos + S j) (take (S j) rest) [])
  end.
Proof.
  unfold match_here, ws_re. cbn [mt st_rest].
  change (mt F0 (RSet false [CSpace])) with (step (set_match false false [CSpace])).
  rewrite rep_loop_greedy by lia. rewrite greedy_try_all.
  rewrite (span_ext _ is_space) by apply set_match_space.
  destruct (span is_space rest) as [|j]; cbn [Nat.add Nat.leb]; [reflexivity|].
  cbn [st_pos st_caps]. replace (pos + S j - pos) with (S j) by lia. reflexivity.
Qed.

Lemma collapse_in_run s :
  collapse_from true s = collapse_from false (drop (span is_space s) s).
Proof.
  induction s as [|c s IH]; cbn [collapse_from span]; [reflexivity|].
  destruct (is_space c) eqn:E; cbn [drop].
  - exact IH.
  - cbn [collapse_from]. now rewrite E.
Qed.

Lemma length_drop n : forall s, String.length (drop n s) = String.length s - n.
Proof.
  induction n as [|n IH]; intros [|c s]; cbn [drop String.length]; try lia.
  rewrite IH. lia.
Qed.

Lemma sub_from_ws : forall fuel prev rest pos,
  String.length rest < fuel ->
  sub_from F0 ws_re " " fuel prev rest pos = collapse_ws rest.
Proof.
  induction fuel as [|fuel IH]; intros prev rest pos Hf; [lia|].
  cbn [sub_from]. rewrite match_here_ws.
  destruct rest as [|c rest]; [reflexivity|].
  unfold collapse_ws. cbn [span collapse_from].
  destruct (is_space c) eqn:E.
  - cbn [m_end]. replace (pos + S (span is_space rest) - pos) with (S (span is_space rest)) by lia.
    cbn [Nat.eqb]. rewrite IH.
    + cbn [drop]. unfold collapse_ws. rewrite <- collapse_in_run. reflexivity.
    + cbn [drop]. rewrite length_drop. cbn in Hf. lia.
  - rewrite IH by (cbn in Hf; lia). reflexivity.
Qed.

Lemma sub_ws_collapse s : sub F0 "\s+" " " s = collapse_ws s.
Proof.
  unfold sub. rewrite parse_ws. apply sub_from_ws. lia.
Qed.

(** ** Trimming and truncation *)

Lemma collapse_single_spaced_from b s :
  single_spaced_from b (collapse_from b s) = true.
Proof.
  revert b. induction s as [|c s IH]; intros b; cbn [collapse_from]; [reflexivity|].
  destruct (is_space c) eqn:E.
  - destruct b; [apply IH|]. cbn. apply IH.
  - cbn [single_spaced_from]. rewrite E. apply IH.
Qed.

Lemma collapse_single_spaced s : single_spaced (collapse_ws s) = true.
Proof. apply collapse_single_spaced_from. Qed.

Lemma single_spaced_weaken s :
  single_spaced_from true s = true -> single_spaced_from false s = true.
Proof.
  destruct s as [|c s]; cbn; [easy|].
  destruct (is_space c); [|easy].
  rewrite andb_false_r. discriminate.
Qed.

Lemma single_spaced_any b s :
  single_spaced_from b s = true -> single_spaced_from false s = true.
Proof. destruct b; [apply single_spaced_weaken|easy]. Qed.

Lemma lstrip_single_spaced b s :
  single_spaced_from b s = true -> single_spaced (lstrip s) = true.
Proof.
  revert b. induction s as [|c s IH]; intros b; cbn [lstrip single_spaced_from]; [easy|].
  destruct (is_space c) eqn:E.
  - intros H. apply andb_prop in H as [_ H]. now apply IH in H.
  - intros H. unfold single_spaced. cbn [single_spaced_from]. now rewrite E.
Qed.

Lemma rstrip_single_spaced : forall s b,
  single_spaced_from b s = true -> single_spaced_from b (rstrip s) = true.
Proof.
  induction s as [|c s IH]; intros b; cbn [rstrip single_spaced_from]; [easy|].
  destruct (is_space c) eqn:E.
  - intros H. apply andb_prop in H as [H1 H2].
    specialize (IH true H2).
    destruct (rstrip s) as [|c' t]; [reflexivity|].
    cbn [single_spaced_from]. rewrite E, H1. exact IH.
  - intros H. specialize (IH false H).
    destruct (rstrip s) as [|c' t].
    + cbn [single_spaced_from]. now rewrite E.
    + cbn [single_spaced_from]. rewrite E. exact IH.
Qed.

Lemma strip_single_spaced s : single_spaced s = true -> single_spaced (strip s) = true.
Proof.
  intros H. unfold strip. apply rstrip_single_spaced.
  now apply (lstrip_single_spaced false).
Qed.

Lemma lstrip_starts s : starts_space (lstrip s) = false.
Proof.
  induction s as [|c s IH]; cbn [lstrip]; [reflexivity|].
  destruct (is_space c) eqn:E; [exact IH|]. cbn. exact E.
Qed.

Lemma lstrip_fixed s : starts_space s = false -> lstrip s = s.
Proof. destruct s as [|c s]; cbn; [easy|]. now intros ->. Qed.

Lemma rstrip_starts s : starts_space s = false -> starts_space (rstrip s) = false.
Proof.
  destruct s as [|c s]; cbn [rstrip starts_space]; [easy|].
  intros E. destruct (rstrip s); [rewrite E|]; cbn; exact E.
Qed.

Lemma rstrip_idem s : rstrip (rstrip s) = rstrip s.
Proof.
  induction s as [|c s IH]; cbn [rstrip]; [reflexivity|].
  destruct (rstrip s) as [|c' t] eqn:Et.
  - destruct (is_space c) eqn:E; [reflexivity|]. cbn. now rewrite E.
  - cbn [rstrip]. cbn [rstrip] in IH. destruct (rstrip t) as [|c'' t'] eqn:Et'.
    + destruct (is_space c'); [discriminate IH|]. now rewrite IH.
    + now rewrite IH.
Qed.

(** A stripped string is trimmed: stripping it again changes nothing. *)
Lemma strip_idem s : strip (strip s) = strip s.
Proof.
  unfold strip. rewrite (lstrip_fixed (rstrip (lstrip s))).
  - apply rstrip_idem.
  - apply rstrip_starts, lstrip_starts.
Qed.

Lemma length_take n : forall s, n <= String.length s -> String.length (take n s) = n.
Proof.
  induction n as [|n IH]; intros [|c s]; cbn [take String.length]; try lia.
  intros H. rewrite IH; lia.
Qed.

Lemma length_append s t : String.length (s ++ t) = String.length s + String.length t.
Proof. induction s as [|c s IH]; cbn; [reflexivity|]. now rewrite IH. Qed.

(** The clean-up loop of [extract_sds_data] on one value. *)
Lemma clean_value_spec raw :
  let w := strip (collapse_ws raw) in
  strip w = w /\ single_spaced w = true /\
  (String.length w <= 500 -> clean_value raw = w) /\
  (500 < String.length w ->
     clean_value raw = take 497 w ++ "..." /\ String.length (clean_value raw) = 500).
Proof.
  intros w. unfold clean_value. rewrite sub_ws_collapse. fold w.
  split; [apply strip_idem|].
  split; [apply strip_single_spaced, collapse_single_spaced|].
  split; intros H.
  - replace (500 <? String.length w)%nat with false by (symmetry; apply Nat.ltb_ge; lia).
    reflexivity.
  - replace (500 <? String.length w)%nat with true by (symmetry; apply Nat.ltb_lt; lia).
    split; [reflexivity|].
    rewrite length_append, length_take by lia. reflexivity.
Qed.

Section OrchestratorClaims.
Variable set_iter : list string -> list string.

Lemma get_merge_field pd sd data f g :
  Dict.get g (merge_field pd sd data f) =
  if String.eqb g f then
    if (3 <? String.length (strip (get_or_empty f pd)))%nat then Some (get_or_empty f pd)
    else if (3 <? String.length (strip (get_or_empty f sd)))%nat then Some (get_or_empty f sd)
    else Dict.get g data
  else Dict.get g data.
Proof.
  unfold merge_field.
  destruct (3 <? _)%nat; [apply get_set|].
  destruct (3 <? _)%nat; [apply get_set|].
  now destruct (String.eqb g f).
Qed.

Lemma get_fold_merge pd sd g : forall fields data,
  Dict.get g data = Some "" ->
  Dict.get g (fold_left (merge_field pd sd) fields data) =
  if in_list g fields
  then Some (automatic_choice (get_or_empty g pd) (get_or_empty g sd))
  else Some "".
Proof.
  assert (Hgen : forall fields data v,
    Dict.get g data = Some v ->
    (v = "" \/ v = automatic_choice (get_or_empty g pd) (get_or_empty g sd)) ->
    Dict.get g (fold_left (merge_field pd sd) fields data) =
    if in_list g fields
    then Some (automatic_choice (get_or_empty g pd) (get_or_empty g sd))
    else Some v).
  { induction fields as [|f fields IH]; intros data v Hg Hv; cbn [fold_left in_list existsb]; [exact Hg|].
    destruct (String.eqb g f) eqn:E; cbn [orb].
    - apply String.eqb_eq in E. subst f.
      assert (Hc : Dict.get g (merge_field pd sd data g) =
                   Some (automatic_choice (get_or_empty g pd) (get_or_empty g sd))).
      { rewrite get_merge_field, String.eqb_refl. unfold automatic_choice in *.
        destruct (3 <? _)%nat; [reflexivity|].
        destruct (3 <? _)%nat; [reflexivity|].
        rewrite Hg. now destruct Hv as [->| ->]. }
      rewrite (IH _ _ Hc) by (now right).
      now destruct (in_list g fields).
    - apply (IH _ v); [|exact Hv].
      rewrite get_merge_field, E. exact Hg. }
  intros fields data Hg. apply (Hgen fields data ""); [exact Hg|now left].
Qed.

Lemma in_list_In x l : In x l -> in_list x l = true.
Proof.
  intros H. unfold in_list. apply existsb_exists. exists x. split; [exact H|apply String.eqb_refl].
Qed.

Lemma get_initial g :
  In g required_fields ->
  Dict.get g (map (fun field : string => (field, "")) required_fields) = Some "".
Proof.
  intros H.
  assert (Hk : In g (Dict.keys (map (fun field : string => (field, "")) required_fields)))
    by (rewrite keys_initial; exact H).
  destruct (in_keys_get _ _ Hk) as [v Hv]. rewrite Hv. f_equal.
  clear Hk H. revert Hv. generalize required_fields.
  induction l as [|f l IH]; cbn; [discriminate|].
  destruct (String.eqb g f); [now intros [= <-]|exact IH].
Qed.

(** C2. In Automatic mode every field of the record holds the
    Pattern-based value when its trimmed length exceeds 3 characters,
    whatever the Section-based value; otherwise the Section-based value
    under the same threshold; otherwise the empty string - the value
    chosen having gone through the clean-up (whitespace collapsed,
    trimmed, truncated). *)
Theorem automatic_merge_rule (text field : string) :
  In field required_fields ->
  Dict.get field (extract_sds_data set_iter text "Automatic") =
  Some (clean_value
          (automatic_choice
             (get_or_empty field (extract_pattern_based set_iter text))
             (get_or_empty field (extract_section_based text)))).
Proof.
  intros Hin. unfold extract_sds_data. rewrite get_map_values.
  unfold select_data. cbn [String.eqb Ascii.eqb Bool.eqb].
  rewrite get_fold_merge by (now apply get_initial).
  rewrite in_list_In by exact Hin. reflexivity.
Qed.

(** C1, as amended. Whatever the text and the method, the record of
    [extract_sds_data] has exactly the keys of the code's
    [required_fields], in that order; its values are strings. *)
Theorem extract_sds_data_keys (text method : string) :
  Dict.keys (extract_sds_data set_iter text method) = required_fields.
Proof.
  unfold extract_sds_data. rewrite keys_map_values. apply keys_select_data.
Qed.

(** C3. Every value of the record comes from the value selected for its
    field by collapsing whitespace and trimming; a result of more than 500
    characters is cut to its first 497 characters followed by three dots,
    500 characters in all, and a shorter one is kept whole. *)
Theorem extract_sds_data_normalized (text method field v : string) :
  Dict.get field (extract_sds_data set_iter text method) = Some v ->
  exists raw,
    Dict.get field (select_data set_iter text method) = Some raw /\
    let w := strip (collapse_ws raw) in
    strip w = w /\ single_spaced w = true /\
    (String.length w <= 500 -> v = w) /\
    (500 < String.length w -> v = take 497 w ++ "..." /\ String.length v = 500).
Proof.
  unfold extract_sds_data. rewrite get_map_values.
  destruct (Dict.get field (select_data set_iter text method)) as [raw|]; [|discriminate].
  intros [= <-]. exists raw. split; [reflexivity|]. apply clean_value_spec.
Qed.

End OrchestratorClaims.

(** ** The known-substance trigger *)

Lemma search_from_reach fl r s :
  (forall prev pos, match_here fl r prev s pos <> None) ->
  forall a prev pos, search_from fl r prev (a ++ s) pos <> None.
Proof.
  intros Hs. induction a as [|c a IH]; intros prev pos.
  - cbn [append]. destruct s as [|c s]; cbn [search_from].
    + specialize (Hs prev pos). destruct (match_here fl r prev "" pos); congruence.
    + specialize (Hs prev pos). destruct (match_here fl r prev (String c s) pos); congruence.
  - cbn [append search_from].
    destruct (match_here fl r prev (String c (a ++ s)) pos); [congruence|apply IH].
Qed.

Lemma is_nmp_registry_number a b : is_nmp (a ++ "872-50-4" ++ b) = true.
Proof.
  unfold is_nmp, searchb, search.
  remember (parse nmp_trigger) as P eqn:HP. vm_compute in HP. subst P.
  match goal with |- context [search_from ?fl ?r ?p ?t ?n] =>
    pose proof (search_from_reach fl r ("872-50-4" ++ b)) as H end.
  match goal with |- context [search_from ?fl ?r ?p ?t ?n] =>
    destruct (search_from fl r p t n) eqn:E; [reflexivity|] end.
  exfalso. eapply H; [|exact E].
  intros prev pos. vm_compute. discriminate.
Qed.

(** ** The retry loop of [extract_with_ai] *)

Lemma calls_app tr1 tr2 : calls (tr1 ++ tr2) = calls tr1 + calls tr2.
Proof. unfold calls. now rewrite filter_app, length_app. Qed.

Lemma sleeps_app tr1 tr2 : sleeps (tr1 ++ tr2) = (sleeps tr1 ++ sleeps tr2)%list.
Proof.
  induction tr1 as [|e tr1 IH]; [reflexivity|].
  destruct e; cbn; rewrite ?IH; reflexivity.
Qed.

Lemma calls_rate_limited_attempts text : forall remaining retry_count,
  calls (rate_limited_attempts text remaining retry_count) = remaining.
Proof.
  induction remaining as [|r IH]; intros rc; [reflexivity|].
  cbn [rate_limited_attempts]. change (calls (?a :: ?b :: ?l)) with (S (calls l)).
  now rewrite IH.
Qed.

(** The functions themselves, before their parameters are fixed. *)
Local Abbreviation the_retry_loop := retry_loop.
Local Abbreviation the_extract_with_ai := extract_with_ai.
Local Abbreviation the_extract_sds_with_ml := extract_sds_with_ml.
Local Abbreviation the_extract_from_pdf_light := extract_from_pdf_light.
Local Abbreviation the_extract_from_pdf_with_ai := extract_from_pdf_with_ai.

Section RetryFacts.
Variable provider : nat -> request -> string + string.
Variable json_loads : string -> string + value.
Variable repr_of : value -> string.
Variable interp_str : interp_error -> string.

Local Abbreviation retry_loop := (retry_loop provider interp_str).
Local Abbreviation extract_with_ai s :=
  (extract_with_ai (Some s) provider json_loads repr_of interp_str).

Hypothesis limited : always_rate_limited provider.

Lemma retry_loop_rate_limited text : forall remaining retry_count w,
  retry_loop text remaining retry_count w =
  (inr Exhausted,
   mkWorld (trace w ++ rate_limited_attempts text remaining retry_count) (results_var w)).
Proof.
  induction remaining as [|r IH]; intros rc w.
  - cbn. rewrite app_nil_r. now destruct w.
  - cbn [the_retry_loop rate_limited_attempts].
    unfold catch, bind, call_provider.
    destruct (limited (calls (trace w)) (mkRequest Anthropic PromptExtract text))
      as [msg [Hp Hl]].
    rewrite Hp. cbn [exn_str]. rewrite Hl.
    unfold sleep, emit. cbn [trace results_var]. rewrite IH. cbn [trace results_var].
    rewrite <- !app_assoc. reflexivity.
Qed.

(** Under a provider that always signals a rate limit, the wrapper makes
    its ten attempts, sleeps 3 s and then 10, 20, ..., 100 s, and answers
    with the error of the response-processing block: the loop has left
    [response_text] unbound. *)
Lemma extract_with_ai_rate_limited text filename light_mode w :
  extract_with_ai Anthropic text filename light_mode w =
  (inr (error_result ("Failed to process Anthropic response: "
                        ++ interp_str (UnboundLocal "response_text"))),
   mkWorld (trace w ++ ESleep 3 :: rate_limited_attempts text max_retries 0)
           (results_var w)).
Proof.
  unfold the_extract_with_ai, request_data, bind, sleep, emit.
  rewrite retry_loop_rate_limited. cbn [trace results_var process_response ret].
  rewrite <- app_assoc. reflexivity.
Qed.

End RetryFacts.

Lemma provider_429_limited : always_rate_limited provider_429.
Proof. intros n rq. eexists. split; [reflexivity|]. reflexivity. Qed.

(** C5, at the failing input. With every call answered by a 429 error,
    [extract_with_ai] on the retry-wrapped service makes 10 calls and
    lets no exception out, but the message under "error" is the one of the
    response-processing block and does not hold the attempt count - with
    the wording of either interpreter generation. *)
Theorem rate_limit_exhaustion_reports_no_count :
  let run interp :=
    extract_with_ai (Some Anthropic) provider_429 Json.loads CPython.repr interp
                    "text" None false world0 in
  fst (run CPython.interp_str) =
    inr (error_result "Failed to process Anthropic response: cannot access local variable 'response_text' where it is not associated with a value")
  /\ fst (run CPython.interp_str_310) =
    inr (error_result "Failed to process Anthropic response: local variable 'response_text' referenced before assignment")
  /\ calls (trace (snd (run CPython.interp_str))) = 10
  /\ sleeps (trace (snd (run CPython.interp_str))) = [3; 10; 20; 30; 40; 50; 60; 70; 80; 90; 100]
  /\ contains "10" "Failed to process Anthropic response: cannot access local variable 'response_text' where it is not associated with a value" = false
  /\ contains "10" "Failed to process Anthropic response: local variable 'response_text' referenced before assignment" = false.
Proof. vm_compute. repeat split. Qed.

(** ** The decoding of a reply *)







Section ParsingOrder.
Variable json_loads : string -> string + value.
Variable interp_str : interp_error -> string.


End ParsingOrder.

(** ** The fill-if-empty merges *)








Section MergeFacts.
Variable repr_of : value -> string.











End MergeFacts.

(** ** The calls a run makes *)

Lemma reads_app tr1 tr2 : reads (tr1 ++ tr2) = reads tr1 + reads tr2.
Proof. unfold reads. now rewrite filter_app, length_app. Qed.

Lemma set_absent {V} (k : string) (v : V) (d : Dict.t V) :
  ~ In k (Dict.keys d) -> Dict.set k v d = (d ++ [(k, v)])%list.
Proof.
  induction d as [|[k' v'] d IH]; cbn; [reflexivity|].
  intros H. destruct (String.eqb k k') eqn:E.
  - apply String.eqb_eq in E. subst. tauto.
  - f_equal. apply IH. tauto.
Qed.

Lemma adds_calls_ret {A} (a : A) : adds_calls 0 (ret a).
Proof. intros w. cbn. lia. Qed.

Lemma adds_calls_lift {A} (r : exn + A) : adds_calls 0 (lift r).
Proof. intros w. destruct r; cbn; lia. Qed.

Lemma adds_calls_weaken {A} n n' (m : M A) : n' <= n -> adds_calls n m -> adds_calls n' m.
Proof. intros Hn H w. specialize (H w). lia. Qed.

Lemma adds_calls_bind {A B} n (m : M A) (k : A -> M B) :
  adds_calls n m -> (forall a, adds_calls 0 (k a)) -> adds_calls n (bind m k).
Proof.
  intros Hm Hk w. unfold bind. specialize (Hm w).
  destruct (m w) as [[e|a] w1]; cbn in *; [exact Hm|].
  specialize (Hk a w1). lia.
Qed.

Lemma adds_calls_bind_r {A B} n (m : M A) (k : A -> M B) :
  adds_calls 0 m -> (forall a, adds_calls n (k a)) -> adds_calls 0 (bind m k).
Proof.
  intros Hm Hk w. unfold bind. specialize (Hm w).
  destruct (m w) as [[e|a] w1]; cbn in *; [exact Hm|].
  specialize (Hk a w1). lia.
Qed.

Lemma adds_calls_catch {A} n (m : M A) (h : exn -> M A) :
  adds_calls n m -> (forall e, adds_calls 0 (h e)) -> adds_calls n (catch m h).
Proof.
  intros Hm Hh w. unfold catch. specialize (Hm w).
  destruct (m w) as [[e|a] w1]; cbn in *; [|exact Hm].
  specialize (Hh e w1). lia.
Qed.

Lemma adds_calls_emit e : adds_calls 0 (emit e).
Proof. intros w. unfold emit. cbn [snd trace]. rewrite calls_app. lia. Qed.

Section CallFacts.
Variable ai_service : option service.
Variable provider : nat -> request -> string + string.
Variable json_loads : string -> string + value.
Variable repr_of : value -> string.
Variable interp_str : interp_error -> string.
Variable acquire_text : nat -> string -> string + string.
Variable set_iter : list string -> list string.

Local Abbreviation extract_with_ai :=
  (extract_with_ai ai_service provider json_loads repr_of interp_str).
Local Abbreviation extract_sds_with_ml :=
  (extract_sds_with_ml ai_service provider json_loads repr_of interp_str).
Local Abbreviation extract_from_pdf_with_ai :=
  (extract_from_pdf_with_ai ai_service provider json_loads repr_of interp_str
     acquire_text set_iter).
Local Abbreviation extract_from_pdf_light :=
  (extract_from_pdf_light interp_str acquire_text set_iter).

Lemma adds_calls_call s p text : adds_calls 1 (call_provider provider s p text).
Proof.
  intros w. unfold call_provider.
  destruct (provider _ _); cbn [snd trace]; rewrite calls_app; cbn; lia.
Qed.

Lemma adds_calls_retry text : forall remaining retry_count,
  adds_calls (min 1 remaining) (retry_loop provider interp_str text remaining retry_count).
Proof.
  induction remaining as [|r IH]; intros rc; cbn [retry_loop Nat.min].
  - apply adds_calls_ret.
  - replace (min 1 (S r)) with 1 by (destruct r; reflexivity).
    intros w. unfold catch, bind.
    pose proof (adds_calls_call Anthropic PromptExtract text w) as Hc.
    destruct (call_provider provider Anthropic PromptExtract text w) as [[e|reply] w1];
      cbn [fst snd] in *; [|exact Hc].
    assert (Hrec : forall n w',
              w' = mkWorld (trace w1 ++ [ESleep n]) (results_var w1) ->
              calls (trace w) + 1 <=
              calls (trace (snd (retry_loop provider interp_str text r (S rc) w')))).
    { intros n w' ->. pose proof (IH (S rc) (mkWorld (trace w1 ++ [ESleep n]) (results_var w1))) as H.
      cbn [trace] in H. rewrite calls_app in H. cbn [calls filter is_call List.length] in H.
      eapply Nat.le_trans; [|exact H]. rewrite Nat.add_0_r. apply (Nat.le_trans _ _ _ Hc). apply Nat.le_add_r. }
    destruct (is_rate_limit (exn_str interp_str e)).
    + unfold bind, sleep, emit. now apply (Hrec (backoff_time * S rc)).
    + destruct (S rc <? max_retries)%nat.
      * unfold bind, sleep, emit. now apply (Hrec 2).
      * cbn [ret snd]. exact Hc.
Qed.

Lemma adds_calls_request s text :
  adds_calls 1 (request_data provider json_loads interp_str s text).
Proof.
  destruct s; cbn [request_data].
  - apply adds_calls_catch.
    + apply adds_calls_bind; [apply adds_calls_call|].
      intros a. apply adds_calls_bind_r with (n := 0); [apply adds_calls_lift|].
      intros b. apply adds_calls_ret.
    + intros e. apply adds_calls_ret.
  - intros w. unfold bind, sleep, emit. cbn [fst snd trace results_var].
    pose proof (adds_calls_retry text max_retries 0
                  (mkWorld (trace w ++ [ESleep 3]) (results_var w))) as H.
    cbn [trace] in H. rewrite calls_app in H.
    change (calls [ESleep 3]) with 0 in H. change (Nat.min 1 max_retries) with 1 in H.
    rewrite Nat.add_0_r in H.
    destruct (retry_loop provider interp_str text max_retries 0
                (mkWorld (trace w ++ [ESleep 3]) (results_var w))) as [[e|l] w1];
      cbn [fst snd] in H |- *; [exact H|].
    destruct l; cbn [ret snd]; exact H.
Qed.

(** With a service configured, [extract_with_ai] calls the model at least
    once, whatever [light_mode] says. *)
Lemma adds_calls_extract_with_ai s text filename light_mode :
  adds_calls 1 (the_extract_with_ai (Some s) provider json_loads repr_of
                  interp_str text filename light_mode).
Proof.
  unfold the_extract_with_ai.
  apply adds_calls_bind; [apply adds_calls_request|].
  intros [r|d]; [apply adds_calls_ret|apply adds_calls_lift].
Qed.

(** C10. [extract_with_ai] does not read [light_mode]: both values give
    the same result and the same effects; and [extract_sds_with_ml] in
    light mode, which relies on it, still calls the model. *)
Theorem light_mode_flag_is_ignored :
  (forall text filename w,
     extract_with_ai text filename true w = extract_with_ai text filename false w)
  /\
  (forall s text strategy w,
     ai_service = Some s -> text <> "" ->
     calls (trace w) + 1 <= calls (trace (snd (extract_sds_with_ml text strategy true w)))).
Proof.
  split; [reflexivity|].
  intros s text strategy w Hs Ht.
  unfold the_extract_sds_with_ml.
  destruct text as [|c text]; [contradiction|]. cbn [nonempty negb].
  rewrite Hs.
  refine (adds_calls_bind 1 _ _ _ _ w).
  - apply adds_calls_catch; [apply adds_calls_extract_with_ai|].
    intros e. apply adds_calls_weaken with (n := 1); [lia|].
    apply adds_calls_extract_with_ai.
  - intros a. apply adds_calls_bind_r with (n := 0); [apply adds_calls_lift|].
    intros b. apply adds_calls_lift.
Qed.

(** ** Light mode of [extract_from_pdf_with_ai] *)

Lemma source_file_not_required : ~ In "Source File" required_fields.
Proof. cbn. intros H. repeat (destruct H as [H|H]; [discriminate H|]). exact H. Qed.

Lemma extract_from_pdf_light_run pdf_path w text :
  acquire_text (reads (trace w)) pdf_path = inr text ->
  extract_from_pdf_light pdf_path w =
  (inr (VDict (map (fun kv => (fst kv, VStr (snd kv)))
                   (extract_sds_data set_iter text "Pattern-based")
               ++ [("Source File", VStr (basename pdf_path))])),
   mkWorld (trace w ++ [ERead pdf_path]) (results_var w)).
Proof.
  intros Ha. unfold the_extract_from_pdf_light, catch, bind, read_document.
  rewrite Ha. cbn [as_value py_setitem lift ret].
  rewrite set_absent; [reflexivity|].
  rewrite (keys_map_values VStr). unfold extract_sds_data.
  rewrite keys_map_values, keys_select_data.
  apply source_file_not_required.
Qed.

(** The light-mode path catches every exception itself. *)
Lemma extract_from_pdf_light_returns pdf_path w :
  exists v w', extract_from_pdf_light pdf_path w = (inr v, w').
Proof.
  unfold the_extract_from_pdf_light, catch, bind, read_document.
  destruct (acquire_text (reads (trace w)) pdf_path) as [msg|text].
  - do 2 eexists. reflexivity.
  - do 2 eexists. cbn [as_value py_setitem lift ret]. reflexivity.
Qed.

(** C7, as amended, for [extract_from_pdf_with_ai]. In light mode a
    document that can be read gives the Pattern-based record with the file
    name under "Source File", with one read and no call of the model; and
    when the error of the live call is classified as a rate limit, the
    answer is that of one run of the light-mode path, which reads the
    document once more and calls the model no more. *)
Theorem light_mode_of_pdf_extraction (pdf_path : string) (w : world) :
  (forall text,
     acquire_text (reads (trace w)) pdf_path = inr text ->
     extract_from_pdf_with_ai pdf_path true w =
     (inr (VDict (map (fun kv => (fst kv, VStr (snd kv)))
                      (extract_sds_data set_iter text "Pattern-based")
                  ++ [("Source File", VStr (basename pdf_path))])),
      mkWorld (trace w ++ [ERead pdf_path]) (results_var w)))
  /\
  (forall text extracted_data w1,
     acquire_text (reads (trace w)) pdf_path = inr text ->
     extract_with_ai text (Some (basename pdf_path)) false
       (mkWorld (trace w ++ [ERead pdf_path]) (results_var w)) = (inr extracted_data, w1) ->
     rate_limited extracted_data = inr true ->
     extract_from_pdf_with_ai pdf_path false w = extract_from_pdf_light pdf_path w1
     /\ calls (trace (snd (extract_from_pdf_light pdf_path w1))) = calls (trace w1)
     /\ reads (trace (snd (extract_from_pdf_light pdf_path w1))) = S (reads (trace w1))).
Proof.
  split.
  - intros text Ha. cbn [the_extract_from_pdf_with_ai].
    now apply extract_from_pdf_light_run.
  - intros text extracted w1 Ha He Hr. split.
    + cbn [the_extract_from_pdf_with_ai]. unfold catch at 1, bind at 1.
      unfold read_document at 1. rewrite Ha. unfold bind at 1. rewrite He.
      unfold bind, lift. rewrite Hr. cbn [ret].
      destruct (extract_from_pdf_light_returns pdf_path w1) as [v [w2 E]].
      rewrite E. reflexivity.
    + unfold the_extract_from_pdf_light, catch, bind, read_document.
      destruct (acquire_text (reads (trace w1)) pdf_path);
        cbn [as_value py_setitem lift ret raise snd trace];
        rewrite calls_app, reads_app;
        change (calls [ERead pdf_path]) with 0; change (reads [ERead pdf_path]) with 1;
        lia.
Qed.

End CallFacts.

(** ** The record of [extract_pattern_based] *)

Lemma get_apply_mapping k d m :
  Dict.get k (apply_mapping d m) =
  if String.eqb k (snd m) then
    match Dict.get (fst m) d with
    | Some v => if nonempty v then Some v else Dict.get k d
    | None => Dict.get k d
    end
  else Dict.get k d.
Proof.
  unfold apply_mapping. destruct (Dict.get (fst m) d) as [v|].
  - destruct (nonempty v).
    + apply get_set.
    + now destruct (String.eqb k (snd m)).
  - now destruct (String.eqb k (snd m)).
Qed.

Lemma get_apply_default k d fd :
  Dict.get k (apply_default d fd) =
  if String.eqb k (fst fd) then
    match Dict.get (fst fd) d with
    | Some v => if nonempty v then Some v else Some (snd fd)
    | None => Some (snd fd)
    end
  else Dict.get k d.
Proof.
  unfold apply_default. destruct (String.eqb k (fst fd)) eqn:E.
  - apply String.eqb_eq in E. subst k.
    destruct (Dict.get (fst fd) d) as [v|] eqn:Eg.
    + destruct (nonempty v); [exact Eg|apply get_set_same].
    + apply get_set_same.
  - assert (k <> fst fd) by (intros ->; now rewrite String.eqb_refl in E).
    destruct (Dict.get (fst fd) d) as [v|].
    + destruct (nonempty v); [reflexivity|now apply get_set_other].
    + now apply get_set_other.
Qed.

Ltac dict_get :=
  unfold extract_pattern_based, apply_field_mappings, field_mapping, default_values;
  cbn [fold_left];
  repeat (first [rewrite get_apply_default | rewrite get_apply_mapping | rewrite get_set];
          cbn [String.eqb Ascii.eqb Bool.eqb fst snd]);
  cbn [Dict.get].

Section PatternRecord.
Variable set_iter : list string -> list string.

Lemma pattern_odour text :
  Dict.get "Odour" (extract_pattern_based set_iter text) =
  Some (if is_nmp text then "amine" else generic_odour text).
Proof. dict_get. reflexivity. Qed.

Lemma pattern_health_hazards text :
  Dict.get "Health Hazards" (extract_pattern_based set_iter text) =
  Some (if nonempty (hazard_statement_of set_iter text)
        then hazard_statement_of set_iter text
        else if is_nmp text then nmp_health_hazards else generic_health_hazards text).
Proof. dict_get. now destruct (nonempty _). Qed.



End PatternRecord.

(** ** Running the matcher on a subject with a symbolic tail *)























(** ** The first registry number and the first flash point *)















Section PatternMode.
Variable set_iter : list string -> list string.


End PatternMode.

(** ** The override of [extract_with_ai] *)

Lemma add_missing_fields_dict fields : forall d,
  exists d', add_missing_fields (VDict d) fields = inr (VDict d').
Proof.
  induction fields as [|f fields IH]; intros d; cbn [add_missing_fields].
  - now exists d.
  - unfold add_missing. cbn [py_contains py_setitem].
    destruct (Dict.mem f d); apply IH.
Qed.

Lemma get_flattened repr_of k s d :
  Dict.get k d = Some (VStr s) ->
  Dict.get k (map (fun kv : string * value =>
                     match snd kv with
                     | VList l => (fst kv, VStr (join_items repr_of l))
                     | _ => kv
                     end) d) = Some (VStr s).
Proof.
  induction d as [|[k' v'] d IH]; cbn [Dict.get map fst snd]; [discriminate|].
  destruct (String.eqb k k') eqn:E.
  - intros [= ->]. cbn [Dict.get fst snd]. now rewrite E.
  - intros H. destruct v'; cbn [Dict.get fst snd]; rewrite E; now apply IH.
Qed.

(** On a reply that is a JSON object the record [extract_with_ai] ends with
    holds the fixed phrase and "amine" whenever the text names the
    substance. *)
Lemma finish_record_override repr_of text d :
  mentions_nmp text = true ->
  exists r,
    finish_record repr_of text (VDict d) = inr r /\
    py_getitem r "Health Hazards" = inr (VStr nmp_health_hazards) /\
    py_getitem r "Odour" = inr (VStr "amine").
Proof.
  intros Hm. unfold finish_record.
  destruct (add_missing_fields_dict expected_fields d) as [d' ->].
  unfold nmp_override. rewrite Hm. cbn [py_setitem flatten_lists py_items].
  eexists. split; [reflexivity|].
  cbn [py_getitem]. split.
  - rewrite (get_flattened repr_of _ nmp_health_hazards); [reflexivity|].
    rewrite get_set_other by discriminate. apply get_set_same.
  - rewrite (get_flattened repr_of _ "amine"); [reflexivity|].
    apply get_set_same.
Qed.

(** * The properties at concrete inputs *)

(** C1: the record of the sample document lacks five of the keys the
    canonical field set lists. *)
Lemma canonical_keys_missing :
  let record := extract_sds_data dedup sample_sds "Automatic" in
  Dict.mem "CAS Number" record = false /\
  Dict.mem "Chemical Identification" record = false /\
  Dict.mem "Flash Point" record = false /\
  Dict.mem "Storage Use" record = false /\
  Dict.mem "Environmental Hazards" record = false.
Proof. vm_compute. repeat split. Qed.

(** C2 at the sample document: the Pattern-based product name is longer
    than 3 characters and is the one kept. *)
Lemma automatic_merge_rule_sample :
  In "Product Name" required_fields /\
  Dict.get "Product Name" (extract_sds_data dedup sample_sds "Automatic") =
  Some (clean_value
          (automatic_choice
             (get_or_empty "Product Name" (extract_pattern_based dedup sample_sds))
             (get_or_empty "Product Name" (extract_section_based sample_sds)))).
Proof.
  split.
  - simpl. tauto.
  - apply (automatic_merge_rule dedup sample_sds "Product Name"). simpl. tauto.
Defined.

(** C3 at the sample document: the runs of blanks of the appearance are
    collapsed. *)
Lemma extract_sds_data_normalized_sample :
  Dict.get "Appearance" (extract_sds_data dedup sample_sds "Pattern-based")
    = Some "clear colourless liquid" /\
  exists raw,
    Dict.get "Appearance" (select_data dedup sample_sds "Pattern-based") = Some raw /\
    let w := strip (collapse_ws raw) in
    strip w = w /\ single_spaced w = true /\
    (String.length w <= 500 -> "clear colourless liquid" = w) /\
    (500 < String.length w ->
       "clear colourless liquid" = take 497 w ++ "..."
       /\ String.length "clear colourless liquid" = 500).
Proof.
  split.
  - vm_compute. reflexivity.
  - apply (extract_sds_data_normalized dedup sample_sds "Pattern-based" "Appearance").
    vm_compute. reflexivity.
Defined.

(** C4, at the failing input. The label holds the registry number, so the
    override applies, and the Odour is "amine"; but the text after H315 is
    found as the Hazard Statement, and the field mapping stores it over the
    fixed phrase - whatever the iteration order of the set of H-codes. *)
Theorem known_substance_phrase_is_overwritten (set_iter : list string -> list string) :
  is_nmp nmp_label = true /\
  Dict.get "Health Hazards" (extract_pattern_based set_iter nmp_label)
    = Some "Causes skin irritation" /\
  Dict.get "Health Hazards" (extract_sds_data set_iter nmp_label "Pattern-based")
    = Some "Causes skin irritation" /\
  Dict.get "Odour" (extract_sds_data set_iter nmp_label "Pattern-based")
    = Some "amine" /\
  "Causes skin irritation" <> nmp_health_hazards.
Proof.
  split; [vm_compute; reflexivity|].
  split; [vm_compute; reflexivity|].
  split; [vm_compute; reflexivity|].
  split; [vm_compute; reflexivity|].
  discriminate.
Qed.


(** C7: light mode of [extract_sds_with_ml] calls the model once, and its
    record is the model's, not the Pattern-based one. *)
Lemma ml_light_mode_calls_the_model :
  let run :=
    extract_sds_with_ml (Some OpenAI) provider_json Json.loads CPython.repr
      CPython.interp_str sample_sds "direct_extraction" true world0 in
  calls (trace (snd run)) = 1 /\
  (exists record,
     fst run = inr record /\
     py_getitem record "Product Name" = inr (VStr "NMP solvent") /\
     py_contains "Source File" record = inr false).
Proof.
  split; [vm_compute; reflexivity|].
  eexists. split; [vm_compute; reflexivity|].
  split; vm_compute; reflexivity.
Qed.

(** C7 at the sample document, with a model that refuses the call. *)
Lemma light_mode_of_pdf_extraction_sample :
  let run :=
    extract_from_pdf_with_ai (Some OpenAI) provider_429 Json.loads CPython.repr
      CPython.interp_str acquire_sample dedup "docs/a.pdf" in
  let light :=
    extract_from_pdf_light CPython.interp_str acquire_sample dedup "docs/a.pdf" in
  run true world0 =
    (inr (VDict (map (fun kv => (fst kv, VStr (snd kv)))
                     (extract_sds_data dedup sample_sds "Pattern-based")
                 ++ [("Source File", VStr "a.pdf")])),
     mkWorld [ERead "docs/a.pdf"] (VDict []))
  /\ run false world0 = light world_refused
  /\ calls (trace (snd (light world_refused))) = 1
  /\ reads (trace (snd (light world_refused))) = 2.
Proof.
  destruct (light_mode_of_pdf_extraction (Some OpenAI) provider_429 Json.loads
              CPython.repr CPython.interp_str acquire_sample dedup "docs/a.pdf" world0)
    as [Hlight Hfall].
  split; [exact (Hlight sample_sds eq_refl)|].
  exact (Hfall sample_sds refusal world_refused eq_refl eq_refl eq_refl).
Defined.





(** C10 with a configured service: the light-mode run makes a call. *)
Lemma light_mode_flag_is_ignored_sample :
  extract_with_ai (Some OpenAI) provider_json Json.loads CPython.repr CPython.interp_str
    sample_sds None true world0
  = extract_with_ai (Some OpenAI) provider_json Json.loads CPython.repr CPython.interp_str
    sample_sds None false world0
  /\ calls (trace world0) + 1 <=
     calls (trace (snd (extract_sds_with_ml (Some OpenAI) provider_json Json.loads
                          CPython.repr CPython.interp_str sample_sds
                          "hierarchical_extraction" true world0))).
Proof.
  destruct (light_mode_flag_is_ignored (Some OpenAI) provider_json Json.loads
              CPython.repr CPython.interp_str) as [Hsame Hcalls].
  split; [apply Hsame|].
  apply (Hcalls OpenAI); [reflexivity|discriminate].
Defined.
